(** * Wallet-activity analytics: a shallow embedding of [streamlit_app.py]

    The pure pipeline of the application is embedded function by function:
    [fetch_transactions] (its aggregation loop; the HTTP response is an
    input), [calculate_streaks], [calculate_chain_and_amount],
    [generate_contribution_data] and [analyze_wallet_activity].

    Conventions of the embedding:
    - a [datetime.date] is its proleptic Gregorian ordinal ([toordinal()]),
      an integer; differences of dates, [timedelta(days=i)] and [weekday()]
      are then the arithmetic CPython performs on ordinals;
    - the wall clock ([datetime.date.today()]) is an explicit argument
      [today] of the functions that read it;
    - a Python [int] is a [Z]; a [dict] from dates to counts is a
      [gmap Z Z]; a [set] of chain ids is a [gset Z];
    - a Python exception is a constructor of [exn], and a call that can
      raise returns a [result];
    - the functions that call the built-in [sum] on floats take the
      interpreter ([cpython]) as an argument, since its result depends on
      it. *)

From Stdlib Require Import ZArith List Lia SpecFloat QArith String.
From stdpp Require Import base list gmap sorting.

Local Open Scope Z_scope.

(** ** Calendar dates *)

Module Date.

(** [datetime.date] as its ordinal: 0001-01-01 is day 1. *)
Abbreviation date := Z (only parsing).

Definition is_leap (y : Z) : bool :=
  (y mod 4 =? 0) && (negb (y mod 100 =? 0) || (y mod 400 =? 0)).

(** CPython's [_days_before_year]. *)
Definition days_before_year (y : Z) : Z :=
  let y1 := y - 1 in y1 * 365 + y1 / 4 - y1 / 100 + y1 / 400.

Definition days_in_month (y m : Z) : Z :=
  if m =? 2 then (if is_leap y then 29 else 28)
  else if (m =? 4) || (m =? 6) || (m =? 9) || (m =? 11) then 30 else 31.

(** CPython's [_days_before_month]: the days of the months before [m]. *)
Definition days_before_month (y m : Z) : Z :=
  fold_left (fun acc k => acc + days_in_month y (Z.of_nat k))
            (seq 1 (Z.to_nat (m - 1))) 0.

(** [datetime.date(y, m, d).toordinal()] (CPython's [_ymd2ord]). *)
Definition ymd (y m d : Z) : date :=
  days_before_year y + days_before_month y m + d.

(** [date.weekday()]: Monday is 0 and Sunday is 6; CPython computes
    [(self.toordinal() + 6) % 7]. *)
Definition weekday (d : date) : Z := (d + 6) mod 7.

(** [(a - b).days] *)
Definition days_between (a b : date) : Z := a - b.

(** [d + datetime.timedelta(days=i)] *)
Definition add_days (d : date) (i : Z) : date := d + i.

(** The ordinal of 1970-01-01, the day of timestamp 0. *)
Definition epoch : date := 719163.

(** [datetime.datetime.utcfromtimestamp(ts).date()]: the UTC day an
    instant falls on; [ts] counts seconds since the epoch and the
    division rounds towards minus infinity, as the day of an instant
    before 1970 requires.  No local time zone takes part.  The instant is
    one a [datetime] can hold (years 1 to 9999), as those of the records
    are. *)
Definition utcfromtimestamp_date (ts : Z) : date := epoch + ts / 86400.

End Date.

Import Date.

(** ** Exceptions *)

(** The exceptions these functions can raise are all [ValueError]s; the
    message tells them apart. *)
Inductive exn : Type :=
  | ValueError (msg : string).

Inductive result (A : Type) : Type :=
  | Ok (a : A)
  | Raise (e : exn).
Arguments Ok {A} a.
Arguments Raise {A} e.

(** The error monad, through stdpp's [mret]/[mbind] and their notation
    [x ← r; k]. *)
#[global] Instance result_ret : MRet result := fun _ a => Ok a.
#[global] Instance result_bind : MBind result := fun _ _ k r =>
  match r with
  | Ok a => k a
  | Raise e => Raise e
  end.

Definition raises {A} (r : result A) : Prop := exists e, r = Raise e.

(** ** The activity map *)

(** [sorted(activity_days.keys())]: the keys of a dict are distinct, and
    [sorted] returns them in ascending order. *)
Definition sorted_keys (activity_days : gmap Z Z) : list date :=
  merge_sort Z.le (elements (dom activity_days)).

(** [activity_days.get(date, 0)] *)
Definition dict_get (activity_days : gmap Z Z) (d : date) : Z :=
  default 0 (activity_days !! d).

(** ** [calculate_streaks] *)

(** The state of the loop over [dates]: the three variables it assigns. *)
Record streak_state := StreakState {
  current_streak : Z;
  max_streak : Z;
  previous_date : option date
}.

(** One iteration of [for date in dates].  [previous_date] is [None]
    before the first iteration and a date, which is truthy, afterwards. *)
Definition streak_step (s : streak_state) (d : date) : streak_state :=
  let cur :=
    match previous_date s with
    | Some p => if days_between d p =? 1 then current_streak s + 1 else 1
    | None => 1
    end in
  StreakState cur (Z.max (max_streak s) cur) (Some d).

Definition streak_init : streak_state := StreakState 0 0 None.

Definition streak_loop (dates : list date) : streak_state :=
  fold_left streak_step dates streak_init.

(** [calculate_streaks(activity_days)], returning
    [(active_streak, max_streak)].  [dates[-1]] is the last element. *)
Definition calculate_streaks (activity_days : gmap Z Z) (today : date) : Z * Z :=
  let dates := sorted_keys activity_days in
  let s := streak_loop dates in
  let active_streak :=
    match last dates with
    | Some d => if today =? d then current_streak s else 0
    | None => 0
    end in
  (active_streak, max_streak s).

(** ** Transfer records *)

(** A decimal numeral [dec_digits / 10 ^ dec_scale], the form in which the
    analytics service writes a dollar amount (["10.5"] is 105 with scale 1). *)
Record decimal := Decimal { dec_digits : N; dec_scale : nat }.

Definition pow10 (k : nat) : positive := Nat.iter k (Pos.mul 10) 1%positive.

(** [tx["receiving"]]: the fields the pipeline reads. *)
Record receiving_info := Receiving {
  timestamp : Z;
  chainId : Z;
  amountUSD : decimal
}.

Record transfer := Transfer { receiving : receiving_info }.

(** The decoded HTTP response: the value under ["transfers"], when the key
    is there. *)
Record response_json := Response { transfers : option (list transfer) }.

(** ** [fetch_transactions]: the aggregation of activity days *)

(** One iteration of [for tx in transactions]. *)
Definition activity_step (activity_days : gmap Z Z) (tx : transfer) : gmap Z Z :=
  let date := utcfromtimestamp_date (timestamp (receiving tx)) in
  <[date := dict_get activity_days date + 1]> activity_days.

(** [fetch_transactions], from the decoded response [data] on:
    [data.get("transfers", [])], then the loop over an initially empty
    dict. *)
Definition fetch_transactions (data : response_json)
    : list transfer * gmap Z Z :=
  let transactions := default [] (transfers data) in
  (transactions, fold_left activity_step transactions ∅).

(** ** Binary64 arithmetic *)

Module Float64.

Definition prec : Z := 53.
Definition emax : Z := 1024.

Definition add : spec_float -> spec_float -> spec_float := SFadd prec emax.
Definition sub : spec_float -> spec_float -> spec_float := SFsub prec emax.
Definition div : spec_float -> spec_float -> spec_float := SFdiv prec emax.

(** An integer as a binary64, rounded to nearest even. *)
Definition of_Z (z : Z) : spec_float := binary_normalize prec emax z 0 false.

(** [float(s)] for a decimal numeral: the binary64 nearest to the exact
    quotient, ties to even.  The quotient of the two integers is rounded
    once, from the exact remainder. *)
Definition of_decimal (d : decimal) : spec_float :=
  match dec_digits d with
  | N0 => S754_zero false
  | Npos p =>
      div (S754_finite false p 0) (S754_finite false (pow10 (dec_scale d)) 0)
  end.

(** The rational a binary64 stands for; infinities and NaN stand for none. *)
Definition to_Q (f : spec_float) : option Q :=
  match f with
  | S754_zero _ => Some 0%Q
  | S754_finite s m e =>
      let v := if s then Z.neg m else Z.pos m in
      Some (if 0 <=? e then inject_Z (v * 2 ^ e)
            else Qmake v (Z.to_pos (2 ^ (- e))))
  | _ => None
  end.

End Float64.

(** The rational a decimal numeral stands for. *)
Definition decimal_value (d : decimal) : Q :=
  Qmake (Z.of_N (dec_digits d)) (pow10 (dec_scale d)).

(** ** [calculate_chain_and_amount] *)

(** A Python number: the built-in [sum] starts from the [int] 0 and yields
    a [float] as soon as it has added one. *)
Inductive py_num : Type :=
  | PyInt (z : Z)
  | PyFloat (f : spec_float).

(** The implicit conversion of the left operand in [int + float]. *)
Definition py_to_float (x : py_num) : spec_float :=
  match x with
  | PyInt z => Float64.of_Z z
  | PyFloat f => f
  end.

(** [acc + x] for a float [x]. *)
Definition py_add_float (acc : py_num) (x : spec_float) : py_num :=
  PyFloat (Float64.add (py_to_float acc) x).

(** The built-in [sum] adds floats in one of two ways, by the interpreter
    that runs the script. *)
Inductive cpython : Type :=
  | Before312  (* up to CPython 3.11: plain additions from left to right *)
  | From312    (* CPython 3.12 and later: Neumaier's compensated summation *).

(** The float loop of [sum] from CPython 3.12 on ([builtin_sum_impl]):
    the running total [f_result] and the compensation [c]. *)
Module PySum.

Record state := State { f_result : spec_float; c : spec_float }.

(** One float item [x]:
    [t = f_result + x;
     if (fabs(f_result) >= fabs(x)) c += (f_result - t) + x;
     else c += (x - t) + f_result;
     f_result = t]. *)
Definition step (s : state) (x : spec_float) : state :=
  let t := Float64.add (f_result s) x in
  let c' :=
    if SFleb (SFabs x) (SFabs (f_result s))
    then Float64.add (c s) (Float64.add (Float64.sub (f_result s) t) x)
    else Float64.add (c s) (Float64.add (Float64.sub x t) (f_result s)) in
  State t c'.

(** At the end of the items:
    [if (c && Py_IS_FINITE(c)) f_result += c; return f_result]. *)
Definition finish (s : state) : spec_float :=
  match c s with
  | S754_finite _ _ _ => Float64.add (f_result s) (c s)
  | _ => f_result s
  end.

End PySum.

(** [sum(xs)] over floats, starting from the [int] 0.  Up to CPython 3.11
    every item is added to the running total, from left to right.  From
    3.12 on the first item is added to the integer 0 in the same way and
    the float loop takes over from there, with a compensation of 0.0. *)
Definition py_sum (py : cpython) (xs : list spec_float) : py_num :=
  match py with
  | Before312 => fold_left py_add_float xs (PyInt 0)
  | From312 =>
      match xs with
      | [] => PyInt 0
      | x :: rest =>
          PyFloat
            (PySum.finish
               (fold_left PySum.step rest
                  (PySum.State (py_to_float (py_add_float (PyInt 0) x))
                               (S754_zero false))))
      end
  end.

(** The rational a Python number stands for. *)
Definition py_value (x : py_num) : option Q :=
  match x with
  | PyInt z => Some (inject_Z z)
  | PyFloat f => Float64.to_Q f
  end.

(** [calculate_chain_and_amount(transactions)], returning
    [(num_distinct_chain_ids, total_amount_usd)]. *)
Definition calculate_chain_and_amount (py : cpython)
    (transactions : list transfer) : Z * py_num :=
  let receiving_chain_ids : gset Z :=
    list_to_set (map (fun tx => chainId (receiving tx)) transactions) in
  let num_distinct_chain_ids := Z.of_nat (size receiving_chain_ids) in
  let total_amount_usd :=
    py_sum py (map (fun tx => Float64.of_decimal (amountUSD (receiving tx)))
                   transactions) in
  (num_distinct_chain_ids, total_amount_usd).

(** ** The numpy operations of [generate_contribution_data] *)

(** The cells of the arrays are binary64 numbers that hold daily counts.
    A count below 2^53 is held exactly, and a count is at most the number
    of records of one response, so a cell is embedded as the integer it
    holds. *)
Module Np.

(** A one-dimensional array. *)
Definition ndarray1 := list Z.

(** A two-dimensional array: its shape and its rows. *)
Record ndarray2 := NdArray2 {
  nrows : nat;
  ncols : nat;
  cells : list (list Z)
}.

(** [a[r][c]] *)
Definition get2 (a : ndarray2) (r c : nat) : option Z :=
  row ← cells a !! r; row !! c.

(** [np.zeros(n)] *)
Definition zeros (n : Z) : result ndarray1 :=
  if n <? 0 then Raise (ValueError "negative dimensions are not allowed")
  else Ok (replicate (Z.to_nat n) 0).

(** [np.pad(a, (before, after), 'constant')] *)
Definition pad (a : ndarray1) (before after : Z) : result ndarray1 :=
  if (before <? 0) || (after <? 0)
  then Raise (ValueError "index can't contain negative values")
  else Ok (replicate (Z.to_nat before) 0 ++ a ++ replicate (Z.to_nat after) 0).

(** The rows of a C-ordered reshape: consecutive runs of [c] cells. *)
Fixpoint chunk (r c : nat) (a : list Z) : list (list Z) :=
  match r with
  | O => []
  | S r' => take c a :: chunk r' c (drop c a)
  end.

(** [a.reshape((r, c))]; a dimension of -1, which numpy infers, is not
    used by the caller. *)
Definition reshape (a : ndarray1) (r c : Z) : result ndarray2 :=
  if (0 <=? r) && (0 <=? c) && (Z.of_nat (length a) =? r * c)
  then Ok (NdArray2 (Z.to_nat r) (Z.to_nat c) (chunk (Z.to_nat r) (Z.to_nat c) a))
  else Raise (ValueError "cannot reshape array").

(** [a.T]: row [j] of the transpose is column [j] of [a]. *)
Definition transpose (a : ndarray2) : ndarray2 :=
  NdArray2 (ncols a) (nrows a)
    (map (fun j => map (fun row => nth j row 0) (cells a)) (seq 0 (ncols a))).

(** [a.sum()] *)
Definition sum1 (a : list Z) : Z := fold_right Z.add 0 a.
Definition sum2 (a : ndarray2) : Z := sum1 (map sum1 (cells a)).

End Np.

(** ** [generate_contribution_data] *)

(** What the function returns: a bare empty array for the empty dict, a
    3-tuple otherwise. *)
Inductive contribution_data : Type :=
  | EmptyArray
  | GridTuple (heatmap_data : Np.ndarray2) (start_date end_date : date).

(** [min(dates)] *)
Definition py_min (dates : list date) : result date :=
  match dates with
  | [] => Raise (ValueError "min() arg is an empty sequence")
  | d :: ds => Ok (fold_left Z.min ds d)
  end.

(** The loop [for i in range(num_days)], writing cell [i] in place. *)
Definition fill_days (activity_days : gmap Z Z) (start_date : date)
    (num_days : Z) (heatmap_data : Np.ndarray1) : Np.ndarray1 :=
  fold_left
    (fun a i => <[i := dict_get activity_days (add_days start_date (Z.of_nat i))]> a)
    (seq 0 (Z.to_nat num_days)) heatmap_data.

Definition generate_contribution_data (activity_days : gmap Z Z) (today : date)
    : result contribution_data :=
  if decide (activity_days = ∅) then Ok EmptyArray
  else
    let dates := sorted_keys activity_days in
    start_date ← py_min dates;
    let end_date := today in
    let num_days := days_between end_date start_date + 1 in
    heatmap_data ← Np.zeros num_days;
    let heatmap_data := fill_days activity_days start_date num_days heatmap_data in
    let start_weekday := weekday start_date in
    let num_weeks := (num_days + start_weekday) / 7 + 1 in
    padded_data ←
      Np.pad heatmap_data start_weekday
             (num_weeks * 7 - (num_days + start_weekday));
    reshaped ← Np.reshape padded_data num_weeks 7;
    Ok (GridTuple (Np.transpose reshaped) start_date end_date).

(** ** [analyze_wallet_activity] *)

(** The dict the function returns, key by key. *)
Module Analysis.
Record t := Make {
  num_distinct_chain_ids : Z;
  total_amount_usd : py_num;
  active_streak : Z;
  longest_streak : Z;
  heatmap_data : Np.ndarray2;
  start_date : date;
  end_date : date
}.
End Analysis.

(** [analyze_wallet_activity], from the decoded response on.  The last
    assignment unpacks the value of [generate_contribution_data] into three
    names; a bare empty array yields no value to unpack. *)
Definition analyze_wallet_activity (py : cpython) (data : response_json)
    (today : date) : result Analysis.t :=
  let '(transactions, activity_days) := fetch_transactions data in
  let '(active, longest) := calculate_streaks activity_days today in
  let '(chains, total) := calculate_chain_and_amount py transactions in
  r ← generate_contribution_data activity_days today;
  match r with
  | GridTuple heatmap_data start_date end_date =>
      Ok (Analysis.Make chains total active longest heatmap_data start_date end_date)
  | EmptyArray =>
      Raise (ValueError "not enough values to unpack (expected 3, got 0)")
  end.

(** ** The week labels of the chart *)

(** [date_labels] of the page script: one date per column of the grid,
    [num_weeks = heatmap_data.shape[1]] of them, a week apart from the
    start date on ([start_date + timedelta(weeks=i)]). *)
Definition date_labels (heatmap_data : Np.ndarray2) (start_date : date)
    : list date :=
  let num_weeks := Np.ncols heatmap_data in
  map (fun i => add_days start_date (7 * Z.of_nat i)) (seq 0 num_weeks).

(** ** The vocabulary of the specification *)

(** The streak notions of the glossary, over the set of activity days. *)
Section Runs.
Variable days : gset Z.

(** [n] consecutive calendar days from [a] on, all of them active. *)
Definition is_run (a n : Z) : Prop :=
  1 <= n /\ forall i, 0 <= i < n -> a + i ∈ days.

(** A run that cannot be extended on either side. *)
Definition maximal_run (a n : Z) : Prop :=
  is_run a n /\ (a - 1 ∉ days) /\ (a + n ∉ days).

(** [n] is the maximum length over the maximal runs. *)
Definition longest_run_length (n : Z) : Prop :=
  (exists a, maximal_run a n) /\ forall a k, maximal_run a k -> k <= n.

(** [d] is the latest activity day. *)
Definition latest_day (d : Z) : Prop :=
  d ∈ days /\ forall d', d' ∈ days -> d' <= d.

(** [n] is the length of the final run, the maximal run that ends on the
    latest activity day. *)
Definition final_run_length (n : Z) : Prop :=
  exists a d, latest_day d /\ maximal_run a n /\ a + n - 1 = d.
End Runs.

(** The UTC day of a record, and the number of records of a sequence that
    fall on a day. *)
Definition record_date (tx : transfer) : date :=
  utcfromtimestamp_date (timestamp (receiving tx)).

Definition records_on (transactions : list transfer) (d : date) : Z :=
  Z.of_nat (length (filter (fun tx => record_date tx = d) transactions)).

(** The grid notions of the specification. *)

(** [d] is the earliest activity day, the grid's [startDate]. *)
Definition earliest_day (days : gset Z) (d : Z) : Prop :=
  d ∈ days /\ forall d', d' ∈ days -> d <= d'.

(** The inclusive day count from [start_date] to [today]. *)
Definition total_days (start_date today : date) : Z := today - start_date + 1.

(** The Monday-based weekday index of the start date. *)
Definition leading_pad (start_date : date) : Z := weekday start_date.

(** The flat daily sequence: the count of each day from [start_date] to
    [today], in chronological order, 0 for a day without entry. *)
Definition daily_sequence (activity_days : gmap Z Z) (start_date today : date)
    : list Z :=
  map (fun i => dict_get activity_days (start_date + Z.of_nat i))
      (seq 0 (Z.to_nat (total_days start_date today))).

(** The daily sequence between its leading zeros and the trailing zeros
    that fill [columns] weeks. *)
Definition padded_sequence (activity_days : gmap Z Z) (start_date today : date)
    (columns : Z) : list Z :=
  replicate (Z.to_nat (leading_pad start_date)) 0
  ++ daily_sequence activity_days start_date today
  ++ replicate
       (Z.to_nat (columns * 7 - (leading_pad start_date + total_days start_date today)))
       0.

(** The sum of the counts of a dict, [sum(activity_days.values())]. *)
Definition map_sum (activity_days : gmap Z Z) : Z :=
  map_fold (fun _ v acc => v + acc) 0 activity_days.

(** The number of week columns [generate_contribution_data] computes. *)
Definition num_weeks (start_date today : date) : Z :=
  (days_between today start_date + 1 + weekday start_date) / 7 + 1.

(** The metrics notions of the specification. *)

(** The destination chain ids of a sequence of records, and the number of
    distinct values among them. *)
Definition chain_ids (transactions : list transfer) : list Z :=
  map (fun tx => chainId (receiving tx)) transactions.

Definition distinct_count (l : list Z) : Z := Z.of_nat (length (remove_dups l)).

(** The exact sum of the amounts, as a rational. *)
Definition exact_total (transactions : list transfer) : Q :=
  fold_right (fun tx acc => (decimal_value (amountUSD (receiving tx)) + acc)%Q)
             0%Q transactions.



(** The invariant of the streak loop. *)

(** [k] consecutive days from [a] on, all in the list. *)
Definition run_in (l : list Z) (a k : Z) : Prop :=
  forall i, 0 <= i < k -> a + i ∈ l.

(** What the loop variables hold once the dates of [l] have been walked. *)
Definition streak_inv (l : list Z) (s : streak_state) : Prop :=
  match last l with
  | None => s = streak_init
  | Some x =>
      previous_date s = Some x /\
      (forall z, z ∈ l -> z <= x) /\
      1 <= current_streak s <= max_streak s /\
      run_in l (x - current_streak s + 1) (current_streak s) /\
      (x - current_streak s ∉ l) /\
      (exists a, run_in l a (max_streak s)) /\
      (forall a k, run_in l a k -> k <= max_streak s)
  end.

(** Concrete inputs used below. *)

(** The dict of scenario 3: records on 2024-01-01 and 2024-01-02, then a
    gap, then 2024-01-10 (here with three records on the last day). *)
Definition scenario3_days : gmap Z Z :=
  <[ymd 2024 1 1 := 1]> (<[ymd 2024 1 2 := 1]> (<[ymd 2024 1 10 := 3]> ∅)).

(** One record on Monday 2024-01-01. *)
Definition monday_only : gmap Z Z := {[ymd 2024 1 1 := 1]}.

(** Two records on 2024-01-03 and one on 2024-01-04. *)
Definition two_days : gmap Z Z := <[ymd 2024 1 3 := 2]> {[ymd 2024 1 4 := 1]}.

(** Scenario 5: chain ids 1, 1, 2 and amounts 10.5, 5.25, 100. *)
Definition scenario5 : list transfer :=
  [Transfer (Receiving 1704067200 1 (Decimal 105 1));
   Transfer (Receiving 1704070800 1 (Decimal 525 2));
   Transfer (Receiving 1704153600 2 (Decimal 100 0))].

(** Two transfers of 0.1 and 0.2 dollars. *)
Definition dime_and_two : list transfer :=
  [Transfer (Receiving 1704067200 1 (Decimal 1 1));
   Transfer (Receiving 1704070800 1 (Decimal 2 1))].

(** * Properties *)

(** ** Sorted keys *)

Lemma sorted_keys_elem_of (m : gmap Z Z) (d : Z) :
  d ∈ sorted_keys m <-> d ∈ dom m.
Proof.
  unfold sorted_keys. rewrite merge_sort_Permutation. apply elem_of_elements.
Qed.

Lemma StronglySorted_le_lt (l : list Z) :
  NoDup l -> StronglySorted Z.le l -> StronglySorted Z.lt l.
Proof.
  induction l as [|x l IH]; intros Hnd Hs; [constructor|].
  apply NoDup_cons in Hnd as [Hx Hnd].
  apply StronglySorted_cons in Hs as [Hall Hs].
  apply StronglySorted_cons. split; [|auto].
  rewrite Forall_forall in Hall |- *. intros y Hy.
  specialize (Hall y Hy). assert (x <> y) by (intros ->; contradiction). lia.
Qed.

Lemma sorted_keys_sorted (m : gmap Z Z) : StronglySorted Z.lt (sorted_keys m).
Proof.
  apply StronglySorted_le_lt.
  - unfold sorted_keys. rewrite merge_sort_Permutation. apply NoDup_elements.
  - apply Sorted_StronglySorted; [apply _|].
    unfold sorted_keys. apply (Sorted_merge_sort Z.le).
Qed.

Lemma sorted_keys_nil (m : gmap Z Z) : sorted_keys m = [] <-> m = ∅.
Proof.
  split.
  - intros Hnil. apply map_empty. intros d.
    apply not_elem_of_dom. rewrite <- sorted_keys_elem_of, Hnil. apply not_elem_of_nil.
  - intros ->. reflexivity.
Qed.

(** ** The streak loop *)

Lemma streak_loop_snoc (l : list Z) (y : Z) :
  streak_loop (l ++ [y]) = streak_step (streak_loop l) y.
Proof. unfold streak_loop. rewrite fold_left_app. reflexivity. Qed.

Lemma run_in_below (l : list Z) (y a k : Z) :
  run_in (l ++ [y]) a k -> a + k - 1 < y -> run_in l a k.
Proof.
  intros Hrun Hlt i Hi. specialize (Hrun i Hi).
  apply elem_of_app in Hrun as [Hin|Hin]; [exact Hin|].
  apply list_elem_of_singleton in Hin. lia.
Qed.

Lemma run_in_top (l : list Z) (y a k : Z) :
  (forall z, z ∈ l -> z < y) -> run_in (l ++ [y]) a k -> 1 <= k -> a + k - 1 <= y.
Proof.
  intros Hlt Hrun Hk. specialize (Hrun (k - 1) ltac:(lia)).
  apply elem_of_app in Hrun as [Hin|Hin].
  - specialize (Hlt _ Hin). lia.
  - apply list_elem_of_singleton in Hin. lia.
Qed.

Lemma streak_inv_first (y : Z) : streak_inv [y] (streak_step streak_init y).
Proof.
  unfold streak_inv, streak_step; simpl.
  split; [reflexivity|]. split.
  { intros z Hz. apply list_elem_of_singleton in Hz. lia. }
  split; [lia|]. split.
  { intros i Hi. apply list_elem_of_singleton. lia. }
  split.
  { intros Hin. apply list_elem_of_singleton in Hin. lia. }
  split.
  { exists y. intros i Hi. apply list_elem_of_singleton. lia. }
  intros a k Hrun.
  destruct (Z_lt_le_dec 1 k) as [Hk|Hk]; [|lia].
  pose proof (Hrun 0 ltac:(lia)) as H0. pose proof (Hrun 1 ltac:(lia)) as H1.
  apply list_elem_of_singleton in H0, H1. lia.
Qed.

Lemma streak_inv_step (l : list Z) (x y : Z) (s : streak_state) :
  last l = Some x -> (forall z, z ∈ l -> z < y) ->
  streak_inv l s -> streak_inv (l ++ [y]) (streak_step s y).
Proof.
  intros Hlast Hlt. unfold streak_inv. rewrite Hlast, last_snoc.
  intros (Hprev & Hmax & Hcur & Hrun & Hstop & [a0 Hbest] & Hbound).
  assert (x ∈ l) as Hx by (by apply last_Some_elem_of).
  pose proof (Hlt x Hx) as Hxy.
  unfold streak_step. rewrite Hprev. unfold days_between. simpl.
  split; [reflexivity|]. split.
  { intros z Hz. apply elem_of_app in Hz as [Hz|Hz].
    - specialize (Hlt z Hz). lia.
    - apply list_elem_of_singleton in Hz. lia. }
  destruct (Z.eqb_spec (y - x) 1) as [Hnext|Hgap].
  - (* the next calendar day: the streak goes on *)
    split; [lia|]. split.
    { intros i Hi. destruct (Z.eq_dec i (current_streak s)) as [->|Hne].
      - apply elem_of_app. right. apply list_elem_of_singleton. lia.
      - apply elem_of_app. left.
        replace (y - (current_streak s + 1) + 1 + i)
          with (x - current_streak s + 1 + i) by lia.
        apply Hrun. lia. }
    split.
    { intros Hin. apply elem_of_app in Hin as [Hin|Hin].
      - apply Hstop. replace (x - current_streak s) with (y - (current_streak s + 1)) by lia.
        exact Hin.
      - apply list_elem_of_singleton in Hin. lia. }
    split.
    { destruct (Z_le_gt_dec (current_streak s + 1) (max_streak s)) as [Hle|Hgt].
      - exists a0. rewrite Z.max_l by lia.
        intros i Hi. apply elem_of_app. left. by apply Hbest.
      - exists (x - current_streak s + 1). rewrite Z.max_r by lia.
        intros i Hi. destruct (Z.eq_dec i (current_streak s)) as [->|Hne].
        + apply elem_of_app. right. apply list_elem_of_singleton. lia.
        + apply elem_of_app. left. apply Hrun. lia. }
    intros a k Hk.
    destruct (Z_lt_le_dec k 1) as [Hsmall|Hpos]; [lia|].
    pose proof (run_in_top l y a k Hlt Hk Hpos) as Htop.
    destruct (Z.eq_dec (a + k - 1) y) as [Hend|Hend].
    + destruct (Z_le_gt_dec k (current_streak s + 1)) as [Hle|Hgt]; [lia|].
      exfalso. apply Hstop.
      pose proof (Hk (k - 1 - (current_streak s + 1)) ltac:(lia)) as Hin.
      apply elem_of_app in Hin as [Hin|Hin].
      * replace (x - current_streak s)
          with (a + (k - 1 - (current_streak s + 1))) by lia. exact Hin.
      * apply list_elem_of_singleton in Hin. lia.
    + specialize (Hbound a k (run_in_below l y a k Hk ltac:(lia))). lia.
  - (* a gap: the streak restarts at 1 *)
    split; [lia|]. split.
    { intros i Hi. apply elem_of_app. right. apply list_elem_of_singleton. lia. }
    split.
    { intros Hin. apply elem_of_app in Hin as [Hin|Hin].
      - specialize (Hmax _ Hin). lia.
      - apply list_elem_of_singleton in Hin. lia. }
    split.
    { exists a0. rewrite Z.max_l by lia.
      intros i Hi. apply elem_of_app. left. by apply Hbest. }
    intros a k Hk.
    destruct (Z_lt_le_dec k 1) as [Hsmall|Hpos]; [lia|].
    pose proof (run_in_top l y a k Hlt Hk Hpos) as Htop.
    destruct (Z.eq_dec (a + k - 1) y) as [Hend|Hend].
    + destruct (Z_le_gt_dec k 1) as [Hle|Hgt]; [lia|].
      exfalso. pose proof (Hk (k - 2) ltac:(lia)) as Hin.
      apply elem_of_app in Hin as [Hin|Hin].
      * specialize (Hmax _ Hin). lia.
      * apply list_elem_of_singleton in Hin. lia.
    + specialize (Hbound a k (run_in_below l y a k Hk ltac:(lia))). lia.
Qed.

Lemma streak_inv_loop (l : list Z) :
  StronglySorted Z.lt l -> streak_inv l (streak_loop l).
Proof.
  induction l as [|y l IH] using rev_ind; intros Hs.
  - reflexivity.
  - rewrite streak_loop_snoc.
    apply StronglySorted_app in Hs as (Hlt & Hl & _).
    specialize (IH Hl).
    destruct (last l) as [x|] eqn:Hlast.
    + apply (streak_inv_step l x); [exact Hlast| |exact IH].
      intros z Hz. apply (Hlt z y Hz). apply list_elem_of_singleton. reflexivity.
    + apply last_None in Hlast. subst l.
      unfold streak_inv in IH. simpl in IH. rewrite IH. apply streak_inv_first.
Qed.

(** The result of [calculate_streaks] on a non-empty dict, in terms of the
    loop state and the last sorted date. *)
Lemma calculate_streaks_nonempty (m : gmap Z Z) (today : date) :
  m <> ∅ ->
  exists x, last (sorted_keys m) = Some x /\
    streak_inv (sorted_keys m) (streak_loop (sorted_keys m)) /\
    calculate_streaks m today =
      (if today =? x then current_streak (streak_loop (sorted_keys m)) else 0,
       max_streak (streak_loop (sorted_keys m))).
Proof.
  intros Hne.
  destruct (last (sorted_keys m)) as [x|] eqn:Hlast.
  - exists x. split; [reflexivity|]. split.
    + apply streak_inv_loop, sorted_keys_sorted.
    + unfold calculate_streaks. rewrite Hlast. reflexivity.
  - apply last_None, sorted_keys_nil in Hlast. contradiction.
Qed.

Lemma calculate_streaks_empty (today : date) : calculate_streaks ∅ today = (0, 0).
Proof. reflexivity. Qed.

Lemma run_in_dom (m : gmap Z Z) (a k : Z) :
  run_in (sorted_keys m) a k <-> forall i, 0 <= i < k -> a + i ∈ dom m.
Proof.
  unfold run_in. split; intros H i Hi; apply sorted_keys_elem_of, H, Hi.
Qed.

(** C3: on a non-empty dict, [calculate_streaks] returns as longest streak
    the maximum length over the maximal runs of consecutive calendar days
    among the keys, and as active streak the length of the final run when
    the latest key is [today] and 0 otherwise; a date that does not follow
    the previous one by exactly one day restarts the counter at 1; and the
    keys 2024-01-01, 2024-01-02, 2024-01-10 with [today] = 2024-01-10 give
    (1, 2). *)
Theorem calculate_streaks_runs :
  (forall (m : gmap Z Z) (today : date), m <> ∅ ->
     longest_run_length (dom m) (snd (calculate_streaks m today)) /\
     exists d, latest_day (dom m) d /\
       (d = today -> final_run_length (dom m) (fst (calculate_streaks m today))) /\
       (d <> today -> fst (calculate_streaks m today) = 0)) /\
  (forall (s : streak_state) (p d : date),
     previous_date s = Some p -> days_between d p <> 1 ->
     current_streak (streak_step s d) = 1) /\
  calculate_streaks scenario3_days (ymd 2024 1 10) = (1, 2).
Proof.
  split; [|split].
  - intros m today Hne.
    destruct (calculate_streaks_nonempty m today Hne) as (x & Hlast & Hinv & ->).
    unfold streak_inv in Hinv. rewrite Hlast in Hinv.
    destruct Hinv as (_ & Hmax & Hcur & Hrun & Hstop & [a0 Hbest] & Hbound).
    set (s := streak_loop (sorted_keys m)) in *.
    assert (forall a k, is_run (dom m) a k -> k <= max_streak s) as Hbound'.
    { intros a k [_ Hk]. apply (Hbound a), run_in_dom, Hk. }
    assert (x ∈ dom m) as Hx.
    { apply sorted_keys_elem_of. by apply last_Some_elem_of. }
    assert (forall z, z ∈ dom m -> z <= x) as Hmax'.
    { intros z Hz. apply Hmax, sorted_keys_elem_of, Hz. }
    simpl. split.
    + split.
      * exists a0. split; [|split].
        -- split; [lia|]. apply run_in_dom, Hbest.
        -- intros Hin.
           assert (is_run (dom m) (a0 - 1) (max_streak s + 1)) as Hlonger.
           { split; [lia|]. intros i Hi.
             destruct (Z.eq_dec i 0) as [->|Hnz].
             - by rewrite Z.add_0_r.
             - replace (a0 - 1 + i) with (a0 + (i - 1)) by lia.
               apply run_in_dom with (k := max_streak s); [exact Hbest|lia]. }
           specialize (Hbound' _ _ Hlonger). lia.
        -- intros Hin.
           assert (is_run (dom m) a0 (max_streak s + 1)) as Hlonger.
           { split; [lia|]. intros i Hi.
             destruct (Z.eq_dec i (max_streak s)) as [->|Hnz].
             - exact Hin.
             - apply run_in_dom with (k := max_streak s); [exact Hbest|lia]. }
           specialize (Hbound' _ _ Hlonger). lia.
      * intros a k [Hk _]. by apply (Hbound' a).
    + exists x. split; [split; assumption|]. split.
      * intros ->. rewrite Z.eqb_refl.
        exists (today - current_streak s + 1), today.
        split; [split; assumption|]. split; [|lia].
        split; [|split].
        -- split; [lia|]. apply run_in_dom, Hrun.
        -- replace (today - current_streak s + 1 - 1)
             with (today - current_streak s) by lia.
           intros Hin. apply Hstop, sorted_keys_elem_of, Hin.
        -- intros Hin. specialize (Hmax' _ Hin). lia.
      * intros Hneq. destruct (Z.eqb_spec today x); [congruence|reflexivity].
  - intros s p d Hprev Hgap. unfold streak_step. rewrite Hprev. simpl.
    destruct (Z.eqb_spec (days_between d p) 1); [contradiction|reflexivity].
  - vm_compute. reflexivity.
Qed.

Lemma scenario3_days_nonempty : scenario3_days <> ∅.
Proof.
  intros Heq. apply (f_equal (fun m : gmap Z Z => m !! ymd 2024 1 1)) in Heq.
  vm_compute in Heq. discriminate.
Qed.

Lemma calculate_streaks_runs_witness :
  longest_run_length (dom scenario3_days) 2 /\
  exists d, latest_day (dom scenario3_days) d /\
    (d = ymd 2024 1 10 -> final_run_length (dom scenario3_days) 1) /\
    (d <> ymd 2024 1 10 -> 1 = 0).
Proof.
  exact (proj1 calculate_streaks_runs scenario3_days (ymd 2024 1 10)
           scenario3_days_nonempty).
Defined.

(** C8: for every dict and date, a positive active streak is at most the
    longest streak, and the longest streak of a non-empty dict is at
    least 1. *)
Theorem streaks_bounds (m : gmap Z Z) (today : date) :
  (0 < fst (calculate_streaks m today) ->
   fst (calculate_streaks m today) <= snd (calculate_streaks m today)) /\
  (m <> ∅ -> 1 <= snd (calculate_streaks m today)).
Proof.
  destruct (decide (m = ∅)) as [->|Hne].
  - rewrite calculate_streaks_empty. simpl. split; [lia|congruence].
  - destruct (calculate_streaks_nonempty m today Hne) as (x & Hlast & Hinv & ->).
    unfold streak_inv in Hinv. rewrite Hlast in Hinv.
    destruct Hinv as (_ & _ & Hcur & _). simpl.
    split; [|lia]. destruct (today =? x); lia.
Qed.

(** ** Aggregation *)

Lemma activity_step_lookup (m : gmap Z Z) (tx : transfer) (d : date) :
  activity_step m tx !! d =
    if decide (record_date tx = d) then Some (dict_get m d + 1) else m !! d.
Proof.
  unfold activity_step. fold (record_date tx).
  destruct (decide (record_date tx = d)) as [->|Hne].
  - apply lookup_insert_eq.
  - by apply lookup_insert_ne.
Qed.

Lemma records_on_cons (tx : transfer) (txs : list transfer) (d : date) :
  records_on (tx :: txs) d =
    (if decide (record_date tx = d) then 1 else 0) + records_on txs d.
Proof.
  unfold records_on. rewrite filter_cons.
  destruct (decide (record_date tx = d)); simpl length; lia.
Qed.

Lemma records_on_nonneg (txs : list transfer) (d : date) : 0 <= records_on txs d.
Proof. unfold records_on. lia. Qed.

(** The loop adds to the count a day already has the number of records
    that fall on it. *)
Lemma activity_fold_lookup (txs : list transfer) (m : gmap Z Z) (d : date) :
  fold_left activity_step txs m !! d =
    match m !! d with
    | Some v => Some (v + records_on txs d)
    | None => if records_on txs d =? 0 then None else Some (records_on txs d)
    end.
Proof.
  revert m. induction txs as [|tx txs IH]; intros m.
  - unfold records_on. simpl. destruct (m !! d); [f_equal; lia|reflexivity].
  - simpl fold_left. rewrite IH, activity_step_lookup, records_on_cons.
    pose proof (records_on_nonneg txs d) as Hnn.
    destruct (decide (record_date tx = d)) as [Heq|Hne].
    + unfold dict_get. destruct (m !! d) as [v|]; simpl.
      * f_equal. lia.
      * destruct (Z.eqb_spec (1 + records_on txs d) 0); [lia|f_equal; lia].
    + reflexivity.
Qed.

(** C6: for every sequence of transfer records, the dict that
    [fetch_transactions] builds from it maps each UTC day on which at
    least one of the records falls to the number of the records that fall
    on it, and has no entry for a day without records; the records
    themselves are returned unchanged; the day of a record is the
    truncation of its timestamp to a whole UTC day; and a response without
    the key is treated as the empty sequence. *)
Theorem activity_days_counts (transactions : list transfer) (d : date) :
  fst (fetch_transactions (Response (Some transactions))) = transactions /\
  (records_on transactions d = 0 ->
   snd (fetch_transactions (Response (Some transactions))) !! d = None) /\
  (0 < records_on transactions d ->
   snd (fetch_transactions (Response (Some transactions))) !! d
     = Some (records_on transactions d)) /\
  (forall tx, 86400 * (record_date tx - epoch) <= timestamp (receiving tx)
              < 86400 * (record_date tx - epoch) + 86400) /\
  (forall data, fetch_transactions data
                = fetch_transactions (Response (Some (default [] (transfers data))))).
Proof.
  unfold fetch_transactions. cbn [fst snd transfers].
  change (default [] (Some transactions)) with transactions.
  rewrite activity_fold_lookup, lookup_empty.
  split; [reflexivity|]. split; [|split; [|split]].
  - intros ->. reflexivity.
  - intros Hpos. destruct (Z.eqb_spec (records_on transactions d) 0);
      [lia|reflexivity].
  - intros tx. unfold record_date, utcfromtimestamp_date.
    pose proof (Z.mul_div_le (timestamp (receiving tx)) 86400 ltac:(lia)).
    pose proof (Z.mul_succ_div_gt (timestamp (receiving tx)) 86400 ltac:(lia)).
    lia.
  - intros data. reflexivity.
Qed.

Lemma activity_days_counts_witness :
  snd (fetch_transactions (Response (Some scenario5))) !! ymd 2024 1 1 = Some 2 /\
  snd (fetch_transactions (Response (Some scenario5))) !! ymd 2024 1 3 = None.
Proof.
  split.
  - apply (proj1 (proj2 (proj2 (activity_days_counts scenario5 (ymd 2024 1 1))))).
    vm_compute. reflexivity.
  - apply (proj1 (proj2 (activity_days_counts scenario5 (ymd 2024 1 3)))).
    vm_compute. reflexivity.
Defined.

(** ** The start date *)

Lemma fold_min_spec (ds : list Z) (d : Z) :
  fold_left Z.min ds d ∈ d :: ds /\ forall z, z ∈ d :: ds -> fold_left Z.min ds d <= z.
Proof.
  revert d. induction ds as [|x ds IH]; intros d; simpl.
  - split; [apply list_elem_of_here|].
    intros z Hz. apply list_elem_of_singleton in Hz. lia.
  - destruct (IH (Z.min d x)) as [Hin Hle]. split.
    + apply elem_of_cons in Hin as [Heq|Hin].
      * rewrite Heq. destruct (Z.min_spec d x) as [[_ ->]|[_ ->]];
          [apply list_elem_of_here|apply list_elem_of_further, list_elem_of_here].
      * by do 2 apply list_elem_of_further.
    + intros z Hz.
      assert (fold_left Z.min ds (Z.min d x) <= Z.min d x) as Hm
        by (apply Hle, list_elem_of_here).
      apply elem_of_cons in Hz as [->|Hz]; [lia|].
      apply elem_of_cons in Hz as [->|Hz]; [lia|].
      by apply Hle, list_elem_of_further.
Qed.

Lemma py_min_sorted_keys (m : gmap Z Z) :
  m <> ∅ -> exists d, py_min (sorted_keys m) = Ok d /\ earliest_day (dom m) d.
Proof.
  intros Hne. destruct (sorted_keys m) as [|d ds] eqn:Hkeys.
  - apply sorted_keys_nil in Hkeys. contradiction.
  - exists (fold_left Z.min ds d). split; [reflexivity|].
    destruct (fold_min_spec ds d) as [Hin Hle]. rewrite <- Hkeys in Hin, Hle.
    split.
    + by apply sorted_keys_elem_of.
    + intros d' Hd'. by apply Hle, sorted_keys_elem_of.
Qed.

Lemma earliest_day_unique (days : gset Z) (d1 d2 : Z) :
  earliest_day days d1 -> earliest_day days d2 -> d1 = d2.
Proof. intros [Hin1 Hle1] [Hin2 Hle2]. specialize (Hle1 _ Hin2). specialize (Hle2 _ Hin1). lia. Qed.

(** ** The daily array *)

Lemma fill_fold (f : nat -> Z) (k : nat) (a : list Z) :
  (k <= length a)%nat ->
  fold_left (fun a i => <[i := f i]> a) (seq 0 k) a = map f (seq 0 k) ++ drop k a.
Proof.
  induction k as [|k IH]; intros Hk.
  - reflexivity.
  - rewrite seq_S, fold_left_app, map_app. simpl.
    rewrite IH by lia.
    destruct (lookup_lt_is_Some_2 a k ltac:(lia)) as [x Hx].
    rewrite (drop_S a x k Hx).
    rewrite insert_app_r_alt by (rewrite length_map, length_seq; lia).
    rewrite length_map, length_seq, Nat.sub_diag. simpl.
    by rewrite <- app_assoc.
Qed.

Lemma fill_days_zeros (m : gmap Z Z) (start_date today : date) :
  0 <= total_days start_date today ->
  fill_days m start_date (total_days start_date today)
    (replicate (Z.to_nat (total_days start_date today)) 0)
  = daily_sequence m start_date today.
Proof.
  intros Hn. unfold fill_days, daily_sequence, add_days.
  rewrite (fill_fold (fun i => dict_get m (start_date + Z.of_nat i)))
    by (rewrite length_replicate; lia).
  rewrite drop_ge by (rewrite length_replicate; lia).
  apply app_nil_r.
Qed.

Lemma length_daily_sequence (m : gmap Z Z) (start_date today : date) :
  length (daily_sequence m start_date today) = Z.to_nat (total_days start_date today).
Proof. unfold daily_sequence. by rewrite length_map, length_seq. Qed.

Lemma weekday_range (d : date) : 0 <= weekday d < 7.
Proof. unfold weekday. apply Z.mod_pos_bound. lia. Qed.

(** The cells of [num_weeks] weeks cover the padded days with one to seven
    cells to spare. *)
Lemma num_weeks_bounds (start_date today : date) :
  0 <= total_days start_date today ->
  let n := leading_pad start_date + total_days start_date today in
  n < num_weeks start_date today * 7 <= n + 7 /\ 1 <= num_weeks start_date today.
Proof.
  intros Hn. unfold num_weeks, leading_pad, total_days, days_between in *.
  pose proof (weekday_range start_date) as Hw.
  set (n := today - start_date + 1 + weekday start_date).
  pose proof (Z.div_mod n 7 ltac:(lia)) as Hdiv.
  pose proof (Z.mod_pos_bound n 7 ltac:(lia)) as Hmod.
  assert (0 <= n / 7) by (apply Z.div_pos; lia).
  simpl. lia.
Qed.

Lemma length_padded_sequence (m : gmap Z Z) (start_date today : date) :
  0 <= total_days start_date today ->
  Z.of_nat (length (padded_sequence m start_date today (num_weeks start_date today)))
  = num_weeks start_date today * 7.
Proof.
  intros Hn. pose proof (num_weeks_bounds start_date today Hn) as [Hb _].
  pose proof (weekday_range start_date) as Hw. unfold leading_pad in *.
  unfold padded_sequence.
  rewrite !length_app, !length_replicate, length_daily_sequence.
  unfold leading_pad. lia.
Qed.

(** ** Reshaping and transposing *)

Lemma chunk_length (r c : nat) (a : list Z) : length (Np.chunk r c a) = r.
Proof. revert a. induction r as [|r IH]; intros a; simpl; [reflexivity|by rewrite IH]. Qed.

Lemma chunk_lookup (r c : nat) (a : list Z) (k : nat) :
  (k < r)%nat -> Np.chunk r c a !! k = Some (take c (drop (k * c) a)).
Proof.
  revert a k. induction r as [|r IH]; intros a k Hk; [lia|].
  destruct k as [|k]; simpl.
  - reflexivity.
  - rewrite IH by lia. rewrite drop_drop. reflexivity.
Qed.

Lemma chunk_row_length (r c : nat) (a row : list Z) :
  length a = (r * c)%nat -> row ∈ Np.chunk r c a -> length row = c.
Proof.
  intros Hlen Hin. apply list_elem_of_lookup in Hin as [k Hk].
  assert (k < r)%nat as Hlt.
  { rewrite <- (chunk_length r c a). by apply lookup_lt_is_Some_1. }
  rewrite chunk_lookup in Hk by exact Hlt. injection Hk as <-.
  rewrite length_take, length_drop. nia.
Qed.

(** Cell [j] of row [k] of the reshaped array is cell [k * c + j] of the
    flat one. *)
Lemma chunk_cell (r c : nat) (a : list Z) (k j : nat) :
  (k < r)%nat -> (j < c)%nat ->
  (row ← Np.chunk r c a !! k; row !! j) = a !! (k * c + j)%nat.
Proof.
  intros Hk Hj. rewrite chunk_lookup by exact Hk. simpl.
  rewrite lookup_take_lt by exact Hj. apply lookup_drop.
Qed.

Lemma sum1_app (a b : list Z) : Np.sum1 (a ++ b) = Np.sum1 a + Np.sum1 b.
Proof. induction a as [|x a IH]; simpl; [reflexivity|rewrite IH; lia]. Qed.

Lemma sum1_replicate_0 (n : nat) : Np.sum1 (replicate n 0) = 0.
Proof. induction n as [|n IH]; simpl; [reflexivity|exact IH]. Qed.

Lemma chunk_sum (r c : nat) (a : list Z) :
  length a = (r * c)%nat -> Np.sum1 (map Np.sum1 (Np.chunk r c a)) = Np.sum1 a.
Proof.
  revert a. induction r as [|r IH]; intros a Hlen; simpl.
  - destruct a; [reflexivity|discriminate].
  - rewrite IH by (rewrite length_drop; lia).
    rewrite <- sum1_app, take_drop. reflexivity.
Qed.

Lemma sum1_map_add (f g : nat -> Z) (l : list nat) :
  Np.sum1 (map (fun j => f j + g j) l) = Np.sum1 (map f l) + Np.sum1 (map g l).
Proof. induction l as [|x l IH]; simpl; [reflexivity|rewrite IH; lia]. Qed.

Lemma sum1_nth_seq (row : list Z) (i : nat) :
  Np.sum1 (map (fun j => nth j row 0) (seq i (length row - i))) = Np.sum1 (drop i row).
Proof.
  remember (length row - i)%nat as k eqn:Hk. revert i Hk.
  induction k as [|k IH]; intros i Hk; simpl.
  - rewrite drop_ge by lia. reflexivity.
  - destruct (lookup_lt_is_Some_2 row i ltac:(lia)) as [x Hx].
    rewrite (drop_S row x i Hx), (nth_lookup_Some _ _ _ _ Hx). simpl.
    rewrite IH by lia. reflexivity.
Qed.

(** Summing the columns of a rectangular array counts every cell once. *)
Lemma transpose_sum (a : Np.ndarray2) :
  (forall row, row ∈ Np.cells a -> length row = Np.ncols a) ->
  Np.sum2 (Np.transpose a) = Np.sum2 a.
Proof.
  destruct a as [r c rows]. unfold Np.sum2, Np.transpose. simpl. intros Hrect.
  rewrite map_map.
  induction rows as [|row rows IH]; simpl.
  - induction (seq 0 c) as [|j l IHl]; simpl; [reflexivity|exact IHl].
  - rewrite (sum1_map_add (fun j => nth j row 0)
               (fun j => Np.sum1 (map (fun row' => nth j row' 0) rows))).
    rewrite IH by (intros row' Hin; apply Hrect; by apply list_elem_of_further).
    f_equal.
    pose proof (sum1_nth_seq row 0) as Hrow.
    rewrite Nat.sub_0_r, (Hrect row (list_elem_of_here _ _)) in Hrow. exact Hrow.
Qed.

Lemma transpose_cell (a : Np.ndarray2) (i j : nat) (row : list Z) :
  (j < Np.ncols a)%nat -> Np.cells a !! i = Some row ->
  Np.get2 (Np.transpose a) j i = Some (nth j row 0).
Proof.
  intros Hj Hrow. unfold Np.get2, Np.transpose. simpl.
  rewrite list_lookup_fmap, lookup_seq_lt by exact Hj. simpl.
  rewrite list_lookup_fmap, Hrow. reflexivity.
Qed.

(** ** [generate_contribution_data], case by case *)

Lemma bind_Ok {A B} (a : A) (k : A -> result B) : (Ok a ≫= k) = k a.
Proof. reflexivity. Qed.

Lemma zeros_total_days (start_date today : date) :
  0 <= total_days start_date today ->
  Np.zeros (total_days start_date today)
  = Ok (replicate (Z.to_nat (total_days start_date today)) 0).
Proof.
  intros Hn. unfold Np.zeros.
  destruct (Z.ltb_spec (total_days start_date today) 0); [lia|reflexivity].
Qed.

Lemma pad_daily_sequence (m : gmap Z Z) (start_date today : date) :
  0 <= total_days start_date today ->
  Np.pad (daily_sequence m start_date today) (weekday start_date)
    (num_weeks start_date today * 7
     - (total_days start_date today + weekday start_date))
  = Ok (padded_sequence m start_date today (num_weeks start_date today)).
Proof.
  intros Hn. pose proof (num_weeks_bounds start_date today Hn) as [Hb _].
  pose proof (weekday_range start_date) as Hw.
  unfold leading_pad in Hb. unfold Np.pad.
  destruct (Z.ltb_spec (weekday start_date) 0); [lia|].
  destruct (Z.ltb_spec (num_weeks start_date today * 7
              - (total_days start_date today + weekday start_date)) 0); [lia|].
  simpl. unfold padded_sequence, leading_pad. do 5 f_equal. lia.
Qed.

Lemma reshape_padded_sequence (m : gmap Z Z) (start_date today : date) :
  0 <= total_days start_date today ->
  Np.reshape (padded_sequence m start_date today (num_weeks start_date today))
    (num_weeks start_date today) 7
  = Ok (Np.NdArray2 (Z.to_nat (num_weeks start_date today)) 7
          (Np.chunk (Z.to_nat (num_weeks start_date today)) 7
             (padded_sequence m start_date today (num_weeks start_date today)))).
Proof.
  intros Hn. pose proof (num_weeks_bounds start_date today Hn) as [_ Hw1].
  unfold Np.reshape. rewrite (length_padded_sequence m start_date today Hn).
  destruct (Z.leb_spec 0 (num_weeks start_date today)); [|lia].
  rewrite Z.eqb_refl. reflexivity.
Qed.

Lemma generate_contribution_data_empty (today : date) :
  generate_contribution_data ∅ today = Ok EmptyArray.
Proof. reflexivity. Qed.

(** On a non-empty dict: numpy refuses a negative day count; otherwise the
    function returns the transposed reshape of the padded sequence, with
    the earliest key and [today]. *)
Lemma generate_contribution_data_nonempty (m : gmap Z Z) (today start_date : date) :
  m <> ∅ -> earliest_day (dom m) start_date ->
  generate_contribution_data m today =
    if total_days start_date today <? 0
    then Raise (ValueError "negative dimensions are not allowed")
    else Ok (GridTuple
               (Np.transpose
                  (Np.NdArray2 (Z.to_nat (num_weeks start_date today)) 7
                     (Np.chunk (Z.to_nat (num_weeks start_date today)) 7
                        (padded_sequence m start_date today
                           (num_weeks start_date today)))))
               start_date today).
Proof.
  intros Hne Hstart. unfold generate_contribution_data.
  destruct (decide (m = ∅)) as [Hemp|_]; [contradiction|].
  destruct (py_min_sorted_keys m Hne) as (d & -> & Hd).
  rewrite (earliest_day_unique _ _ _ Hd Hstart), bind_Ok. clear d Hd.
  cbv zeta.
  change (days_between today start_date + 1) with (total_days start_date today).
  change ((total_days start_date today + weekday start_date) / 7 + 1)
    with (num_weeks start_date today).
  destruct (Z.ltb_spec (total_days start_date today) 0) as [Hneg|Hn].
  - unfold Np.zeros. destruct (Z.ltb_spec (total_days start_date today) 0); [|lia].
    reflexivity.
  - rewrite (zeros_total_days _ _ Hn), bind_Ok.
    rewrite (fill_days_zeros m _ _ Hn).
    rewrite (pad_daily_sequence m _ _ Hn), bind_Ok.
    rewrite (reshape_padded_sequence m _ _ Hn), bind_Ok.
    reflexivity.
Qed.

(** ** The sum of the daily counts *)

Lemma dict_get_insert (m : gmap Z Z) (k v d : Z) :
  dict_get (<[k := v]> m) d = if decide (k = d) then v else dict_get m d.
Proof.
  unfold dict_get. destruct (decide (k = d)) as [->|Hne].
  - by rewrite lookup_insert_eq.
  - by rewrite lookup_insert_ne.
Qed.

Lemma sum1_point (g : Z -> Z) (k v : Z) (l : list Z) :
  NoDup l ->
  Np.sum1 (map (fun d => if decide (k = d) then v else g d) l)
  = Np.sum1 (map g l) + (if decide (k ∈ l) then v - g k else 0).
Proof.
  induction l as [|x l IH]; intros Hnd; simpl.
  - destruct (decide (k ∈ [])) as [Hin|_]; [by apply not_elem_of_nil in Hin|lia].
  - apply NoDup_cons in Hnd as [Hx Hnd]. rewrite (IH Hnd).
    destruct (decide (k = x)) as [->|Hne].
    + destruct (decide (x ∈ l)); [contradiction|].
      destruct (decide (x ∈ x :: l)) as [_|Hout]; [lia|].
      exfalso. apply Hout, list_elem_of_here.
    + destruct (decide (k ∈ l)) as [Hin|Hout].
      * destruct (decide (k ∈ x :: l)) as [_|Hout]; [lia|].
        exfalso. by apply Hout, list_elem_of_further.
      * destruct (decide (k ∈ x :: l)) as [Hin|_]; [|lia].
        apply elem_of_cons in Hin as [?|?]; contradiction.
Qed.

Lemma map_sum_insert (m : gmap Z Z) (k v : Z) :
  m !! k = None -> map_sum (<[k := v]> m) = v + map_sum m.
Proof.
  intros Hk. unfold map_sum. rewrite map_fold_insert_L; [reflexivity| |exact Hk].
  intros. lia.
Qed.

(** Reading a dict at distinct days that include all its keys and adding
    up gives the sum of its counts. *)
Lemma sum1_dict_get (m : gmap Z Z) (l : list Z) :
  NoDup l -> (forall k, k ∈ dom m -> k ∈ l) ->
  Np.sum1 (map (dict_get m) l) = map_sum m.
Proof.
  intros Hnd. induction m as [|k v m Hk IH] using map_ind; intros Hdom.
  - unfold map_sum. rewrite map_fold_empty. clear Hnd Hdom.
    induction l as [|x l IHl]; simpl; [reflexivity|].
    rewrite IHl. unfold dict_get. by rewrite lookup_empty.
  - rewrite (map_ext _ (fun d => if decide (k = d) then v else dict_get m d))
      by (intros d; apply dict_get_insert).
    rewrite (sum1_point (dict_get m) k v l Hnd), map_sum_insert by exact Hk.
    rewrite IH.
    + destruct (decide (k ∈ l)) as [_|Hout].
      * unfold dict_get at 1. rewrite Hk. simpl. lia.
      * exfalso. apply Hout, Hdom. rewrite dom_insert_L. set_solver.
    + intros k' Hk'. apply Hdom. rewrite dom_insert_L. set_solver.
Qed.

Lemma daily_sequence_sum (m : gmap Z Z) (start_date today : date) :
  (forall k, k ∈ dom m -> start_date <= k <= today) ->
  Np.sum1 (daily_sequence m start_date today) = map_sum m.
Proof.
  intros Hdom. unfold daily_sequence.
  rewrite <- (map_map (fun i => start_date + Z.of_nat i) (dict_get m)).
  apply sum1_dict_get.
  - assert (Inj (=) (=) (fun i : nat => start_date + Z.of_nat i)) as Hinj
      by (intros i j Hij; lia).
    apply (NoDup_fmap_2 _), NoDup_seq.
  - intros k Hk. specialize (Hdom k Hk).
    apply list_elem_of_fmap. exists (Z.to_nat (k - start_date)). split; [lia|].
    apply elem_of_seq. unfold total_days. lia.
Qed.

Lemma padded_sequence_sum (m : gmap Z Z) (start_date today : date) (columns : Z) :
  Np.sum1 (padded_sequence m start_date today columns)
  = Np.sum1 (daily_sequence m start_date today).
Proof.
  unfold padded_sequence. rewrite !sum1_app, !sum1_replicate_0. lia.
Qed.

(** ** The grid *)

Lemma grid_rectangular (m : gmap Z Z) (start_date today : date) (row : list Z) :
  0 <= total_days start_date today ->
  row ∈ Np.chunk (Z.to_nat (num_weeks start_date today)) 7
          (padded_sequence m start_date today (num_weeks start_date today)) ->
  length row = 7%nat.
Proof.
  intros Hn. apply chunk_row_length.
  pose proof (length_padded_sequence m start_date today Hn).
  pose proof (num_weeks_bounds start_date today Hn) as [_ ?]. lia.
Qed.

(** C1, at Monday 2024-01-01 with [today] the Sunday of the same week:
    the leading pad is 0 and the days are 7, a whole week already, yet the
    grid has two columns, fourteen cells, seven of them trailing padding. *)
Theorem grid_cells_not_minimal :
  exists g,
    generate_contribution_data monday_only (ymd 2024 1 7)
      = Ok (GridTuple g (ymd 2024 1 1) (ymd 2024 1 7)) /\
    leading_pad (ymd 2024 1 1) + total_days (ymd 2024 1 1) (ymd 2024 1 7) = 7 /\
    Z.of_nat (Np.ncols g) * 7 = 14 /\
    ~ (Z.of_nat (Np.ncols g) * 7
       - (leading_pad (ymd 2024 1 1) + total_days (ymd 2024 1 1) (ymd 2024 1 7)) < 7).
Proof.
  eexists. split; [vm_compute; reflexivity|].
  split; [reflexivity|]. split; [reflexivity|]. vm_compute. discriminate.
Qed.

(** The number of columns in general: for a non-empty dict and a day count
    that is not negative, the grid has one column more than the whole weeks
    in the padded days, so its cells exceed them by one to seven. *)
Theorem grid_columns (m : gmap Z Z) (today start_date : date) :
  m <> ∅ -> earliest_day (dom m) start_date -> 0 <= total_days start_date today ->
  exists g,
    generate_contribution_data m today = Ok (GridTuple g start_date today) /\
    Z.of_nat (Np.ncols g)
      = (leading_pad start_date + total_days start_date today) / 7 + 1 /\
    leading_pad start_date + total_days start_date today
      < Z.of_nat (Np.ncols g) * 7
      <= leading_pad start_date + total_days start_date today + 7.
Proof.
  intros Hne Hstart Hn.
  rewrite (generate_contribution_data_nonempty m today start_date Hne Hstart).
  destruct (Z.ltb_spec (total_days start_date today) 0); [lia|].
  eexists. split; [reflexivity|]. simpl Np.ncols.
  pose proof (num_weeks_bounds start_date today Hn) as [Hb Hw1].
  rewrite Z2Nat.id by lia. split; [|exact Hb].
  unfold num_weeks, leading_pad, total_days, days_between. f_equal. f_equal. lia.
Qed.

Lemma monday_only_nonempty : monday_only <> ∅.
Proof.
  intros Heq. apply (f_equal (fun m : gmap Z Z => m !! ymd 2024 1 1)) in Heq.
  vm_compute in Heq. discriminate.
Qed.

Lemma monday_only_dom (d : Z) : d ∈ dom monday_only -> d = ymd 2024 1 1.
Proof. unfold monday_only. rewrite dom_singleton_L. apply elem_of_singleton. Qed.

Lemma monday_only_earliest : earliest_day (dom monday_only) (ymd 2024 1 1).
Proof.
  split.
  - unfold monday_only. rewrite dom_singleton_L. by apply elem_of_singleton.
  - intros d Hd. rewrite (monday_only_dom d Hd). reflexivity.
Qed.

Lemma grid_columns_witness :
  exists g,
    generate_contribution_data monday_only (ymd 2024 1 7)
      = Ok (GridTuple g (ymd 2024 1 1) (ymd 2024 1 7)) /\
    Z.of_nat (Np.ncols g)
      = (leading_pad (ymd 2024 1 1) + total_days (ymd 2024 1 1) (ymd 2024 1 7)) / 7 + 1 /\
    leading_pad (ymd 2024 1 1) + total_days (ymd 2024 1 1) (ymd 2024 1 7)
      < Z.of_nat (Np.ncols g) * 7
      <= leading_pad (ymd 2024 1 1) + total_days (ymd 2024 1 1) (ymd 2024 1 7) + 7.
Proof.
  apply (grid_columns monday_only (ymd 2024 1 7) (ymd 2024 1 1)).
  - exact monday_only_nonempty.
  - exact monday_only_earliest.
  - vm_compute. discriminate.
Defined.

(** C2, as stated, fails: on the empty dict the function raises nothing. *)
Lemma empty_grid_does_not_raise :
  ~ raises (generate_contribution_data ∅ (ymd 2024 1 1)).
Proof. intros [e He]. discriminate He. Qed.

(** C2, amended: for every date, [generate_contribution_data] applied to
    the empty dict returns a value, the bare empty array, and raises no
    exception. *)
Theorem empty_grid_is_empty_array (today : date) :
  generate_contribution_data ∅ today = Ok EmptyArray /\
  ~ raises (generate_contribution_data ∅ today).
Proof.
  rewrite generate_contribution_data_empty. split; [reflexivity|].
  intros [e He]. discriminate He.
Qed.

(** C4, as stated, fails: with [today] = 2024-01-03 the record of
    2024-01-04 lies after the last day of the grid and is not counted. *)
Lemma grid_sum_drops_later_days :
  two_days <> ∅ /\
  exists g,
    generate_contribution_data two_days (ymd 2024 1 3)
      = Ok (GridTuple g (ymd 2024 1 3) (ymd 2024 1 3)) /\
    Np.sum2 g = 2 /\ map_sum two_days = 3.
Proof.
  split.
  - intros Heq. apply (f_equal (fun m : gmap Z Z => m !! ymd 2024 1 3)) in Heq.
    vm_compute in Heq. discriminate.
  - eexists. split; [vm_compute; reflexivity|]. split; vm_compute; reflexivity.
Qed.

(** C4, amended: for every non-empty dict none of whose keys is later
    than [today], the function returns a grid whose cells add up to the
    sum of the counts of the dict. *)
Theorem grid_sum_preserved (m : gmap Z Z) (today : date) :
  m <> ∅ -> (forall d, d ∈ dom m -> d <= today) ->
  exists g start_date,
    earliest_day (dom m) start_date /\
    generate_contribution_data m today = Ok (GridTuple g start_date today) /\
    Np.sum2 g = map_sum m.
Proof.
  intros Hne Hpast.
  destruct (py_min_sorted_keys m Hne) as (start_date & _ & Hstart).
  pose proof (Hpast _ (proj1 Hstart)) as Hle.
  assert (0 <= total_days start_date today) as Hn by (unfold total_days; lia).
  rewrite (generate_contribution_data_nonempty m today start_date Hne Hstart).
  destruct (Z.ltb_spec (total_days start_date today) 0); [lia|].
  eexists. exists start_date. split; [exact Hstart|]. split; [reflexivity|].
  rewrite transpose_sum by (simpl; intros row; by apply grid_rectangular).
  unfold Np.sum2. simpl Np.cells.
  rewrite chunk_sum.
  - rewrite padded_sequence_sum. apply daily_sequence_sum.
    intros k Hk. split; [by apply (proj2 Hstart)|by apply Hpast].
  - pose proof (length_padded_sequence m start_date today Hn).
    pose proof (num_weeks_bounds start_date today Hn) as [_ ?]. lia.
Qed.

Lemma grid_sum_preserved_witness :
  exists g start_date,
    earliest_day (dom monday_only) start_date /\
    generate_contribution_data monday_only (ymd 2024 1 7)
      = Ok (GridTuple g start_date (ymd 2024 1 7)) /\
    Np.sum2 g = map_sum monday_only.
Proof.
  apply (grid_sum_preserved monday_only (ymd 2024 1 7)).
  - exact monday_only_nonempty.
  - intros d Hd. rewrite (monday_only_dom d Hd). vm_compute. discriminate.
Defined.

(** C5, at Monday 2024-01-01 with [today] the Sunday of the same week:
    the padded days are 7, so one week holds them and no fewer, and the
    grid, filled column by column from the padded sequence, has 7 rows
    but two columns. *)
Theorem grid_columns_exceed_weeks :
  exists g,
    generate_contribution_data monday_only (ymd 2024 1 7)
      = Ok (GridTuple g (ymd 2024 1 1) (ymd 2024 1 7)) /\
    Np.nrows g = 7%nat /\ Np.ncols g = 2%nat /\
    leading_pad (ymd 2024 1 1) + total_days (ymd 2024 1 1) (ymd 2024 1 7) <= 7 * 1 /\
    (forall k, leading_pad (ymd 2024 1 1)
                 + total_days (ymd 2024 1 1) (ymd 2024 1 7) <= 7 * k -> 1 <= k) /\
    forall r c : nat, (r < 7)%nat -> (c < 2)%nat ->
      Np.get2 g r c
        = padded_sequence monday_only (ymd 2024 1 1) (ymd 2024 1 7) 2
            !! (7 * c + r)%nat.
Proof.
  eexists. split; [vm_compute; reflexivity|].
  split; [reflexivity|]. split; [reflexivity|].
  split; [vm_compute; discriminate|]. split.
  - intros k Hk.
    change (leading_pad (ymd 2024 1 1) + total_days (ymd 2024 1 1) (ymd 2024 1 7))
      with 7 in Hk. lia.
  - intros r c Hr Hc.
    destruct c as [|[|c]]; [| |lia];
      do 7 (destruct r as [|r]; [vm_compute; reflexivity|]); lia.
Qed.

(** C10: on a non-empty dict [generate_contribution_data] never returns a
    bare array, and returns the 3-tuple (grid, start date, end date)
    whenever the day count is not negative; on the empty dict it returns a
    single empty array; and [analyze_wallet_activity], which unpacks three
    values, fails on an empty record list with the unpacking error. *)
Theorem return_shape_inconsistent :
  (forall (m : gmap Z Z) (today start_date : date),
     m <> ∅ -> earliest_day (dom m) start_date ->
     generate_contribution_data m today <> Ok EmptyArray /\
     (0 <= total_days start_date today ->
      exists g, generate_contribution_data m today
                  = Ok (GridTuple g start_date today))) /\
  (forall today : date, generate_contribution_data ∅ today = Ok EmptyArray) /\
  (forall (py : cpython) (data : response_json) (today : date),
     fst (fetch_transactions data) = [] ->
     analyze_wallet_activity py data today
       = Raise (ValueError "not enough values to unpack (expected 3, got 0)")).
Proof.
  split; [|split].
  - intros m today start_date Hne Hstart.
    rewrite (generate_contribution_data_nonempty m today start_date Hne Hstart).
    destruct (Z.ltb_spec (total_days start_date today) 0).
    + split; [discriminate|lia].
    + split; [discriminate|]. intros _. by eexists.
  - exact generate_contribution_data_empty.
  - intros py data today Hnil. unfold analyze_wallet_activity.
    unfold fetch_transactions in *. simpl in Hnil. rewrite Hnil.
    destruct py; reflexivity.
Qed.

Lemma return_shape_inconsistent_witness :
  (exists g, generate_contribution_data monday_only (ymd 2024 1 7)
               = Ok (GridTuple g (ymd 2024 1 1) (ymd 2024 1 7))) /\
  analyze_wallet_activity From312 (Response (Some [])) (ymd 2024 1 7)
    = Raise (ValueError "not enough values to unpack (expected 3, got 0)") /\
  analyze_wallet_activity From312 (Response None) (ymd 2024 1 7)
    = Raise (ValueError "not enough values to unpack (expected 3, got 0)").
Proof.
  split; [|split].
  - apply (proj1 return_shape_inconsistent monday_only (ymd 2024 1 7) (ymd 2024 1 1)
             monday_only_nonempty monday_only_earliest).
    vm_compute. discriminate.
  - apply (proj2 (proj2 return_shape_inconsistent)). reflexivity.
  - apply (proj2 (proj2 return_shape_inconsistent)). reflexivity.
Defined.

(** ** Binary64 results that are not negative *)









(** ** Metrics *)

Lemma size_chain_set (l : list Z) :
  Z.of_nat (size (list_to_set l : gset Z)) = distinct_count l.
Proof.
  unfold distinct_count. f_equal.
  rewrite <- (size_list_to_set (C := gset Z) (remove_dups l))
    by apply NoDup_remove_dups.
  f_equal. apply set_eq. intros x.
  by rewrite !elem_of_list_to_set, elem_of_remove_dups.
Qed.


Lemma pow2_mod5 (k : Z) : 0 <= k -> 2 ^ k mod 5 <> 0.
Proof.
  revert k. apply natlike_ind.
  - rewrite Z.pow_0_r. discriminate.
  - intros k Hk IH. rewrite Z.pow_succ_r by exact Hk.
    pose proof (Z.div_mod (2 ^ k) 5 ltac:(lia)) as Hdm.
    pose proof (Z.mod_pos_bound (2 ^ k) 5 ltac:(lia)) as Hb.
    intros Hz. apply Z.mod_divide in Hz as [q Hq]; [|lia]. lia.
Qed.

(** No binary64 stands for 3/10: whatever the order or the compensation
    of the additions, a float total of 0.1 and 0.2 dollars is inexact. *)
Lemma three_tenths_is_no_binary64 (f : spec_float) (q : Q) :
  Float64.to_Q f = Some q -> ~ (q == 3 # 10)%Q.
Proof.
  destruct f as [s|s| |s m e]; simpl; try discriminate.
  - intros [= <-] Heq. discriminate Heq.
  - intros [= <-]. destruct (Z.leb_spec 0 e) as [He|He]; unfold Qeq; simpl.
    + set (v := (if s then Z.neg m else Z.pos m) * 2 ^ e). lia.
    + pose proof (pow2_mod5 (- e) ltac:(lia)) as Hmod.
      assert (0 < 2 ^ (- e)) as Hpos by (apply Z.pow_pos_nonneg; lia).
      rewrite Z2Pos.id by exact Hpos.
      pose proof (Z.div_mod (2 ^ (- e)) 5 ltac:(lia)) as Hdm.
      pose proof (Z.mod_pos_bound (2 ^ (- e)) 5 ltac:(lia)) as Hb.
      set (v := if s then Z.neg m else Z.pos m). lia.
Qed.

Lemma dime_and_two_exact_total : (exact_total dime_and_two == 3 # 10)%Q.
Proof. vm_compute. reflexivity. Qed.



(** C9: for every date, the streaks of the empty dict are (0, 0), and the
    metrics of the empty record list are 0 chains and the total 0 (the
    integer 0, which stands for the same number as the float 0.0), with
    either way of summing; neither function raises.  The empty record
    list aggregates to the empty dict. *)
Theorem empty_input_zero_results (py : cpython) (today : date) :
  calculate_streaks ∅ today = (0, 0) /\
  calculate_chain_and_amount py [] = (0, PyInt 0) /\
  py_value (PyInt 0) = py_value (PyFloat (S754_zero false)) /\
  fetch_transactions (Response (Some [])) = ([], ∅) /\
  fetch_transactions (Response None) = ([], ∅).
Proof. destruct py; repeat split; reflexivity. Qed.

(** ** Where a day sits in the grid *)

(** A cell of the transposed reshape, read from the flat array. *)
Lemma grid_get2 (W : nat) (P : list Z) (r c : nat) :
  (r < 7)%nat -> (c < W)%nat -> length P = (W * 7)%nat ->
  Np.get2 (Np.transpose (Np.NdArray2 W 7 (Np.chunk W 7 P))) r c
  = P !! (c * 7 + r)%nat.
Proof.
  intros Hr Hc Hlen.
  pose proof (chunk_cell W 7 P c r Hc Hr) as Hcell.
  rewrite (chunk_lookup W 7 P c Hc) in Hcell. simpl in Hcell.
  destruct (lookup_lt_is_Some_2 P (c * 7 + r) ltac:(lia)) as [x Hx].
  rewrite Hx in Hcell.
  rewrite (transpose_cell _ c r (take 7 (drop (c * 7) P)));
    [|exact Hr|apply chunk_lookup, Hc].
  by rewrite (nth_lookup_Some _ _ _ _ Hcell).
Qed.

Lemma padded_lookup_day (m : gmap Z Z) (start_date today : date) (columns i : Z) :
  0 <= i < total_days start_date today ->
  padded_sequence m start_date today columns
    !! Z.to_nat (leading_pad start_date + i)
  = Some (dict_get m (start_date + i)).
Proof.
  intros Hi. pose proof (weekday_range start_date) as Hw.
  unfold padded_sequence, leading_pad.
  rewrite lookup_app_r by (rewrite length_replicate; lia).
  rewrite length_replicate.
  replace (Z.to_nat (weekday start_date + i) - Z.to_nat (weekday start_date))%nat
    with (Z.to_nat i) by lia.
  rewrite lookup_app_l by (rewrite length_daily_sequence; lia).
  unfold daily_sequence.
  change (map ?f ?l) with (f <$> l).
  rewrite list_lookup_fmap, lookup_seq_lt by lia. simpl.
  do 2 f_equal. lia.
Qed.

Lemma padded_lookup_pad (m : gmap Z Z) (start_date today : date) (columns : Z) (k : nat) :
  0 <= total_days start_date today ->
  (k < length (padded_sequence m start_date today columns))%nat ->
  Z.of_nat k < leading_pad start_date
  \/ leading_pad start_date + total_days start_date today <= Z.of_nat k ->
  padded_sequence m start_date today columns !! k = Some 0.
Proof.
  intros Hn Hk Hout. pose proof (weekday_range start_date) as Hw.
  unfold padded_sequence, leading_pad in *.
  rewrite !length_app, !length_replicate, length_daily_sequence in Hk.
  destruct Hout as [Hlead|Htrail].
  - rewrite lookup_app_l by (rewrite length_replicate; lia).
    apply lookup_replicate_2. lia.
  - rewrite lookup_app_r by (rewrite length_replicate; lia).
    rewrite lookup_app_r by (rewrite length_replicate, length_daily_sequence; lia).
    apply lookup_replicate_2.
    rewrite length_replicate, length_daily_sequence. lia.
Qed.

Lemma weekday_add (start_date i : Z) :
  weekday (start_date + i) = (weekday start_date + i) mod 7.
Proof.
  unfold weekday. rewrite Z.add_mod_idemp_l by lia. f_equal. lia.
Qed.

(** The count of every day from the earliest key to [today] is in the
    grid, in the row of its weekday and the column of its week counted
    from the Monday on or before the earliest key. *)
Theorem grid_cell_of_day (m : gmap Z Z) (today start_date d : date) :
  m <> ∅ -> earliest_day (dom m) start_date -> start_date <= d <= today ->
  exists g,
    generate_contribution_data m today = Ok (GridTuple g start_date today) /\
    Np.get2 g (Z.to_nat (weekday d))
              (Z.to_nat ((d - start_date + weekday start_date) / 7))
    = Some (dict_get m d).
Proof.
  intros Hne Hstart Hd.
  assert (0 <= total_days start_date today) as Hn by (unfold total_days; lia).
  rewrite (generate_contribution_data_nonempty m today start_date Hne Hstart).
  destruct (Z.ltb_spec (total_days start_date today) 0); [lia|].
  eexists. split; [reflexivity|].
  pose proof (num_weeks_bounds start_date today Hn) as [Hb Hw1].
  pose proof (length_padded_sequence m start_date today Hn) as Hlen.
  pose proof (weekday_range start_date) as Hw.
  pose proof (weekday_range d) as Hwd.
  unfold leading_pad in Hb.
  set (o := d - start_date + weekday start_date).
  assert (weekday d = o mod 7) as Hrow.
  { replace d with (start_date + (d - start_date)) at 1 by lia.
    rewrite weekday_add. f_equal. unfold o. lia. }
  pose proof (Z.div_mod o 7 ltac:(lia)) as Hdm.
  assert (0 <= o / 7) as Hq by (apply Z.div_pos; unfold o; lia).
  assert (o < num_weeks start_date today * 7) as Ho
    by (unfold o, total_days in *; lia).
  rewrite grid_get2 by lia.
  replace (Z.to_nat (o / 7) * 7 + Z.to_nat (weekday d))%nat
    with (Z.to_nat (leading_pad start_date + (d - start_date)))
    by (unfold leading_pad; fold o; lia).
  rewrite padded_lookup_day by (unfold total_days; lia).
  do 2 f_equal. lia.
Qed.

Lemma grid_cell_of_day_witness :
  exists g,
    generate_contribution_data monday_only (ymd 2024 1 7)
      = Ok (GridTuple g (ymd 2024 1 1) (ymd 2024 1 7)) /\
    Np.get2 g (Z.to_nat (weekday (ymd 2024 1 1)))
              (Z.to_nat ((ymd 2024 1 1 - ymd 2024 1 1 + weekday (ymd 2024 1 1)) / 7))
    = Some (dict_get monday_only (ymd 2024 1 1)).
Proof.
  apply (grid_cell_of_day monday_only (ymd 2024 1 7) (ymd 2024 1 1) (ymd 2024 1 1)).
  - exact monday_only_nonempty.
  - exact monday_only_earliest.
  - vm_compute. split; discriminate.
Defined.

(** The cells before the earliest key in the first week and after [today]
    in the last weeks hold 0. *)
Theorem grid_padding_is_zero (m : gmap Z Z) (today start_date : date) (r c : nat) :
  m <> ∅ -> earliest_day (dom m) start_date ->
  0 <= total_days start_date today ->
  (r < 7)%nat -> Z.of_nat c < num_weeks start_date today ->
  Z.of_nat (7 * c + r) < leading_pad start_date
  \/ leading_pad start_date + total_days start_date today <= Z.of_nat (7 * c + r) ->
  exists g,
    generate_contribution_data m today = Ok (GridTuple g start_date today) /\
    Np.get2 g r c = Some 0.
Proof.
  intros Hne Hstart Hn Hr Hc Hout.
  rewrite (generate_contribution_data_nonempty m today start_date Hne Hstart).
  destruct (Z.ltb_spec (total_days start_date today) 0); [lia|].
  eexists. split; [reflexivity|].
  pose proof (length_padded_sequence m start_date today Hn) as Hlen.
  rewrite grid_get2 by lia.
  apply padded_lookup_pad; [exact Hn|lia|].
  replace (c * 7 + r)%nat with (7 * c + r)%nat by lia. exact Hout.
Qed.

Lemma grid_padding_is_zero_witness :
  exists g,
    generate_contribution_data monday_only (ymd 2024 1 7)
      = Ok (GridTuple g (ymd 2024 1 1) (ymd 2024 1 7)) /\
    Np.get2 g 3 1 = Some 0.
Proof.
  apply (grid_padding_is_zero monday_only (ymd 2024 1 7) (ymd 2024 1 1) 3 1).
  - exact monday_only_nonempty.
  - exact monday_only_earliest.
  - vm_compute. discriminate.
  - lia.
  - vm_compute. reflexivity.
  - right. vm_compute. discriminate.
Defined.

(** The shape and the layout of the grid: for a non-empty dict and a day
    count that is not negative, the grid has 7 rows and
    [(leading pad + days) div 7 + 1] columns, all its rows have that many
    cells, and its cell at row [r], column [c] is element [7 * c + r] of
    the daily sequence padded to that number of columns. *)
Theorem grid_layout (m : gmap Z Z) (today start_date : date) :
  m <> ∅ -> earliest_day (dom m) start_date ->
  0 <= total_days start_date today ->
  exists g,
    generate_contribution_data m today = Ok (GridTuple g start_date today) /\
    Np.nrows g = 7%nat /\
    Z.of_nat (Np.ncols g)
      = (leading_pad start_date + total_days start_date today) / 7 + 1 /\
    length (Np.cells g) = 7%nat /\
    (forall row, row ∈ Np.cells g -> length row = Np.ncols g) /\
    forall r c : nat, (r < 7)%nat -> (c < Np.ncols g)%nat ->
      is_Some (Np.get2 g r c) /\
      Np.get2 g r c
        = padded_sequence m start_date today (Z.of_nat (Np.ncols g))
            !! (7 * c + r)%nat.
Proof.
  intros Hne Hstart Hn.
  rewrite (generate_contribution_data_nonempty m today start_date Hne Hstart).
  destruct (Z.ltb_spec (total_days start_date today) 0); [lia|].
  pose proof (num_weeks_bounds start_date today Hn) as [_ Hw1].
  pose proof (length_padded_sequence m start_date today Hn) as Hlen.
  assert (num_weeks start_date today
          = (leading_pad start_date + total_days start_date today) / 7 + 1) as Hcols.
  { unfold num_weeks, leading_pad, total_days, days_between. do 2 f_equal. lia. }
  eexists. split; [reflexivity|].
  change (Np.ncols (Np.transpose _))
    with (Z.to_nat (num_weeks start_date today)).
  rewrite Z2Nat.id by lia.
  split; [reflexivity|]. split; [exact Hcols|].
  split; [reflexivity|].
  split.
  - unfold Np.transpose. cbn [Np.cells Np.ncols Np.nrows]. intros row Hrow.
    apply list_elem_of_fmap in Hrow as (j & -> & _). cbv beta.
    by rewrite length_map, chunk_length.
  - intros r c Hr Hc.
    rewrite grid_get2 by lia.
    replace (7 * c + r)%nat with (c * 7 + r)%nat by lia.
    split; [apply lookup_lt_is_Some_2; lia|reflexivity].
Qed.

Lemma grid_layout_witness :
  exists g,
    generate_contribution_data two_days (ymd 2024 1 9)
      = Ok (GridTuple g (ymd 2024 1 3) (ymd 2024 1 9)) /\
    Np.ncols g = 2%nat /\
    Np.get2 g 2 0 = Some 2 /\ Np.get2 g 3 0 = Some 1.
Proof.
  assert (two_days <> ∅) as Hne.
  { intros Heq. apply (f_equal (fun m : gmap Z Z => m !! ymd 2024 1 3)) in Heq.
    vm_compute in Heq. discriminate. }
  assert (earliest_day (dom two_days) (ymd 2024 1 3)) as Hstart.
  { split.
    - apply elem_of_dom. eexists. vm_compute. reflexivity.
    - intros d Hd. unfold two_days in Hd.
      rewrite dom_insert_L, dom_singleton_L in Hd.
      apply elem_of_union in Hd as [Hd|Hd]; apply elem_of_singleton in Hd;
        subst d; vm_compute; discriminate. }
  destruct (grid_layout two_days (ymd 2024 1 9) (ymd 2024 1 3) Hne Hstart
              ltac:(vm_compute; discriminate))
    as (g & Hg & _ & _ & _ & _ & _).
  exists g. split; [exact Hg|].
  assert (Ok (GridTuple g (ymd 2024 1 3) (ymd 2024 1 9))
          = generate_contribution_data two_days (ymd 2024 1 9)) as Heq
    by (symmetry; exact Hg).
  vm_compute in Heq. injection Heq as ->. repeat split.
Defined.

(** ** The grid total *)

Lemma dict_get_filter_past (m : gmap Z Z) (today d : date) :
  d <= today ->
  dict_get (filter (fun kv : Z * Z => kv.1 <= today) m) d = dict_get m d.
Proof.
  intros Hd. unfold dict_get. rewrite map_lookup_filter.
  destruct (m !! d) as [v|]; simpl; [|reflexivity].
  rewrite option_guard_True by exact Hd. reflexivity.
Qed.

Lemma daily_sequence_filter_past (m : gmap Z Z) (start_date today : date) :
  daily_sequence (filter (fun kv : Z * Z => kv.1 <= today) m) start_date today
  = daily_sequence m start_date today.
Proof.
  unfold daily_sequence. apply map_ext_in. intros i Hi.
  apply in_seq in Hi. apply dict_get_filter_past. unfold total_days in Hi. lia.
Qed.

(** The cells of the grid add up to the counts of the keys that are not
    later than [today]. *)
Theorem grid_sum_up_to_today (m : gmap Z Z) (today start_date : date) :
  m <> ∅ -> earliest_day (dom m) start_date ->
  0 <= total_days start_date today ->
  exists g,
    generate_contribution_data m today = Ok (GridTuple g start_date today) /\
    Np.sum2 g = map_sum (filter (fun kv : Z * Z => kv.1 <= today) m).
Proof.
  intros Hne Hstart Hn.
  rewrite (generate_contribution_data_nonempty m today start_date Hne Hstart).
  destruct (Z.ltb_spec (total_days start_date today) 0); [lia|].
  eexists. split; [reflexivity|].
  rewrite transpose_sum by (simpl; intros row; by apply grid_rectangular).
  unfold Np.sum2. cbn [Np.cells].
  rewrite chunk_sum.
  - rewrite padded_sequence_sum, <- daily_sequence_filter_past.
    apply daily_sequence_sum. intros k Hk.
    apply elem_of_dom in Hk as [v Hv].
    apply map_lookup_filter_Some in Hv as [Hv Hle]. simpl in Hle.
    split; [|exact Hle]. apply (proj2 Hstart). by apply (elem_of_dom_2 m k v).
  - pose proof (length_padded_sequence m start_date today Hn).
    pose proof (num_weeks_bounds start_date today Hn) as [_ ?]. lia.
Qed.

Lemma grid_sum_up_to_today_witness :
  exists g,
    generate_contribution_data monday_only (ymd 2024 1 7)
      = Ok (GridTuple g (ymd 2024 1 1) (ymd 2024 1 7)) /\
    Np.sum2 g
    = map_sum (filter (fun kv : Z * Z => kv.1 <= ymd 2024 1 7) monday_only).
Proof.
  apply (grid_sum_up_to_today monday_only (ymd 2024 1 7) (ymd 2024 1 1)).
  - exact monday_only_nonempty.
  - exact monday_only_earliest.
  - vm_compute. discriminate.
Defined.

(** ** More on the aggregation *)

Lemma map_sum_insert_present (m : gmap Z Z) (k v v0 : Z) :
  m !! k = Some v0 -> map_sum (<[k := v]> m) = map_sum m - v0 + v.
Proof.
  intros Hk.
  assert (map_sum m = v0 + map_sum (delete k m)) as Hm.
  { rewrite <- (insert_delete_id m k v0 Hk) at 1.
    apply map_sum_insert, lookup_delete_eq. }
  rewrite <- (insert_delete_eq m k v), map_sum_insert by apply lookup_delete_eq.
  lia.
Qed.

Lemma activity_step_sum (m : gmap Z Z) (tx : transfer) :
  map_sum (activity_step m tx) = map_sum m + 1.
Proof.
  unfold activity_step, dict_get.
  destruct (m !! utcfromtimestamp_date (timestamp (receiving tx))) as [v0|] eqn:Hk.
  - rewrite (map_sum_insert_present _ _ _ v0 Hk). simpl. lia.
  - rewrite map_sum_insert by exact Hk. simpl. lia.
Qed.

Lemma activity_fold_sum (txs : list transfer) (m : gmap Z Z) :
  map_sum (fold_left activity_step txs m) = map_sum m + Z.of_nat (length txs).
Proof.
  revert m. induction txs as [|tx txs IH]; intros m; simpl fold_left.
  - simpl. lia.
  - rewrite IH, activity_step_sum. simpl length. lia.
Qed.

Lemma activity_fold_dom (txs : list transfer) (m : gmap Z Z) :
  dom (fold_left activity_step txs m)
  = list_to_set (map record_date txs) ∪ dom m.
Proof.
  revert m. induction txs as [|tx txs IH]; intros m; simpl fold_left.
  - simpl. by rewrite union_empty_l_L.
  - rewrite IH. unfold activity_step. rewrite dom_insert_L.
    fold (record_date tx). simpl map.
    apply set_eq. intros x.
    rewrite !elem_of_union, !elem_of_list_to_set, elem_of_cons, elem_of_singleton.
    tauto.
Qed.

(** The counts of the activity dict built from a sequence of records add
    up to the number of records: every record is counted on exactly one
    day. *)
Theorem activity_total_is_record_count (transactions : list transfer) :
  map_sum (snd (fetch_transactions (Response (Some transactions))))
  = Z.of_nat (length transactions).
Proof.
  unfold fetch_transactions. cbn [fst snd transfers].
  change (default [] (Some transactions)) with transactions.
  rewrite activity_fold_sum. unfold map_sum. rewrite map_fold_empty. lia.
Qed.

Lemma activity_total_is_record_count_witness :
  map_sum (snd (fetch_transactions (Response (Some scenario5)))) = 3.
Proof. exact (activity_total_is_record_count scenario5). Defined.

(** The keys of the activity dict built from a sequence of records are
    exactly the UTC days of those records; the dict is empty exactly when
    the sequence is; every count it holds is at least 1; and a response
    without the ["transfers"] key gives no records and the empty dict. *)
Theorem activity_keys_are_record_days (transactions : list transfer) :
  dom (snd (fetch_transactions (Response (Some transactions))))
    = list_to_set (map record_date transactions) /\
  (snd (fetch_transactions (Response (Some transactions))) = ∅
   <-> transactions = []) /\
  (forall d c,
     snd (fetch_transactions (Response (Some transactions))) !! d = Some c ->
     1 <= c) /\
  fetch_transactions (Response None) = ([], ∅).
Proof.
  unfold fetch_transactions. cbn [fst snd transfers].
  change (default [] (Some transactions)) with transactions.
  split; [|split; [|split]].
  - rewrite activity_fold_dom, dom_empty_L. by rewrite union_empty_r_L.
  - split.
    + intros Hemp.
      pose proof (activity_fold_sum transactions ∅) as Hsum.
      rewrite Hemp in Hsum. unfold map_sum in Hsum. rewrite map_fold_empty in Hsum.
      destruct transactions; [reflexivity|simpl in Hsum; lia].
    + intros ->. reflexivity.
  - intros d c. rewrite activity_fold_lookup, lookup_empty.
    pose proof (records_on_nonneg transactions d).
    destruct (Z.eqb_spec (records_on transactions d) 0); [discriminate|].
    intros [= <-]. lia.
  - reflexivity.
Qed.

Lemma activity_keys_are_record_days_witness :
  1 <= 2 /\
  dom (snd (fetch_transactions (Response (Some scenario5))))
    = list_to_set (map record_date scenario5).
Proof.
  split.
  - apply (proj1 (proj2 (proj2 (activity_keys_are_record_days scenario5)))
             (ymd 2024 1 1) 2).
    vm_compute. reflexivity.
  - exact (proj1 (activity_keys_are_record_days scenario5)).
Defined.

Lemma dict_get_activity (txs : list transfer) (d : date) :
  dict_get (fold_left activity_step txs ∅) d = records_on txs d.
Proof.
  unfold dict_get. rewrite activity_fold_lookup, lookup_empty.
  destruct (Z.eqb_spec (records_on txs d) 0) as [->|_]; reflexivity.
Qed.

(** The activity dict does not depend on the order in which the response
    lists the transfers. *)
Theorem activity_days_permutation (txs txs' : list transfer) :
  txs ≡ₚ txs' ->
  snd (fetch_transactions (Response (Some txs)))
  = snd (fetch_transactions (Response (Some txs'))).
Proof.
  intros Hperm. simpl. apply map_eq. intros d.
  rewrite !activity_fold_lookup, lookup_empty.
  assert (records_on txs d = records_on txs' d) as ->; [|reflexivity].
  unfold records_on. f_equal. apply Permutation_length.
  by apply filter_Permutation.
Qed.

Lemma activity_days_permutation_witness :
  snd (fetch_transactions (Response (Some scenario5)))
  = snd (fetch_transactions (Response (Some (rev scenario5)))).
Proof.
  apply (activity_days_permutation scenario5 (rev scenario5)).
  symmetry. apply (reverse_Permutation scenario5).
Defined.

(** Aggregating two batches of transfers as one adds their counts day by
    day. *)
Theorem activity_days_app (txs1 txs2 : list transfer) (d : date) :
  dict_get (snd (fetch_transactions (Response (Some (txs1 ++ txs2))))) d
  = dict_get (snd (fetch_transactions (Response (Some txs1)))) d
    + dict_get (snd (fetch_transactions (Response (Some txs2)))) d.
Proof.
  simpl. rewrite !dict_get_activity. unfold records_on.
  rewrite filter_app, length_app. lia.
Qed.

(** ** More on the streaks *)

Lemma sorted_keys_length (m : gmap Z Z) : length (sorted_keys m) = size m.
Proof.
  unfold sorted_keys. rewrite merge_sort_Permutation.
  change (length (elements (dom m))) with (size (dom m)). apply size_dom.
Qed.

Lemma run_in_length (l : list Z) (a k : Z) :
  0 <= k -> run_in l a k -> k <= Z.of_nat (length l).
Proof.
  intros Hk Hrun.
  assert (seqZ a k ⊆+ l) as Hsub.
  { apply NoDup_submseteq; [apply NoDup_seqZ|].
    intros x Hx. apply elem_of_seqZ in Hx.
    replace x with (a + (x - a)) by lia. apply Hrun. lia. }
  apply submseteq_length in Hsub. rewrite length_seqZ in Hsub. lia.
Qed.

(** The loop state on any dict, empty or not. *)
Lemma streak_loop_bounds (m : gmap Z Z) :
  0 <= current_streak (streak_loop (sorted_keys m))
    <= max_streak (streak_loop (sorted_keys m)) /\
  max_streak (streak_loop (sorted_keys m)) <= Z.of_nat (size m).
Proof.
  pose proof (streak_inv_loop _ (sorted_keys_sorted m)) as Hinv.
  unfold streak_inv in Hinv.
  destruct (last (sorted_keys m)) as [x|] eqn:Hlast.
  - destruct Hinv as (_ & _ & Hcur & _ & _ & [a Hbest] & _).
    split; [lia|]. rewrite <- sorted_keys_length.
    apply (run_in_length _ a); [lia|exact Hbest].
  - rewrite Hinv. simpl. lia.
Qed.

Lemma calculate_streaks_range (m : gmap Z Z) (today : date) :
  0 <= fst (calculate_streaks m today) <= snd (calculate_streaks m today) /\
  snd (calculate_streaks m today) <= Z.of_nat (size m).
Proof.
  pose proof (streak_loop_bounds m) as [Hcur Hmax].
  unfold calculate_streaks. simpl. split; [|exact Hmax].
  destruct (last (sorted_keys m)) as [x|]; [|lia].
  destruct (today =? x); lia.
Qed.

(** For every dict and date, the active streak is at most the longest
    streak, which is at most the number of activity days; neither is
    negative; and both are 0 on a dict without keys. *)
Theorem streaks_le_activity_days (m : gmap Z Z) (today : date) :
  0 <= fst (calculate_streaks m today) <= snd (calculate_streaks m today) /\
  snd (calculate_streaks m today) <= Z.of_nat (size m) /\
  (size m = 0%nat -> calculate_streaks m today = (0, 0)).
Proof.
  pose proof (calculate_streaks_range m today) as [Hact Hlong].
  split; [exact Hact|]. split; [exact Hlong|].
  intros Hsz. apply map_size_empty_iff in Hsz. subst m. reflexivity.
Qed.

(** The active streak is positive exactly when [today] is the latest
    activity day; whenever [today] itself has no record it is 0, however
    long the run that ended the day before. *)
Theorem active_streak_positive_iff (m : gmap Z Z) (today : date) :
  (0 < fst (calculate_streaks m today) <-> latest_day (dom m) today) /\
  (today ∉ dom m -> fst (calculate_streaks m today) = 0).
Proof.
  assert (0 < fst (calculate_streaks m today) <-> latest_day (dom m) today) as Hiff.
  { destruct (decide (m = ∅)) as [->|Hne].
    - rewrite calculate_streaks_empty. simpl. split; [lia|].
      intros [Hin _]. rewrite dom_empty_L in Hin. by apply not_elem_of_empty in Hin.
    - destruct (calculate_streaks_nonempty m today Hne) as (x & Hlast & Hinv & ->).
      unfold streak_inv in Hinv. rewrite Hlast in Hinv.
      destruct Hinv as (_ & Hmax & Hcur & _). simpl.
      assert (x ∈ dom m) as Hx
        by (apply sorted_keys_elem_of; by apply last_Some_elem_of).
      destruct (Z.eqb_spec today x) as [->|Hneq].
      + split; [|lia]. intros _. split; [exact Hx|].
        intros d' Hd'. by apply Hmax, sorted_keys_elem_of.
      + split; [lia|]. intros [Hin Hle]. exfalso.
        apply sorted_keys_elem_of, Hmax in Hin. specialize (Hle x Hx). lia. }
  split; [exact Hiff|].
  intros Hout.
  pose proof (calculate_streaks_range m today) as [[Hnn _] _].
  destruct (Z_lt_le_dec 0 (fst (calculate_streaks m today))) as [Hpos|Hz]; [|lia].
  apply Hiff in Hpos as [Hin _]. contradiction.
Qed.

Lemma active_streak_positive_iff_witness :
  fst (calculate_streaks scenario3_days (ymd 2024 1 11)) = 0.
Proof.
  apply (proj2 (active_streak_positive_iff scenario3_days (ymd 2024 1 11))).
  intros Hin. apply elem_of_dom in Hin as [v Hv]. vm_compute in Hv. discriminate.
Defined.

(** When the activity days are exactly [n] consecutive days from [a] on,
    the longest streak is [n] and the active streak is [n] if [today] is
    the last of them and 0 otherwise. *)
Theorem consecutive_days_streak (m : gmap Z Z) (today a n : Z) :
  1 <= n -> (forall d, d ∈ dom m <-> a <= d < a + n) ->
  calculate_streaks m today = (if today =? a + n - 1 then n else 0, n).
Proof.
  intros Hn Hdom.
  assert (m <> ∅) as Hne.
  { intros ->. rewrite dom_empty_L in Hdom.
    apply (not_elem_of_empty (C := gset Z) a), Hdom. lia. }
  destruct (calculate_streaks_nonempty m today Hne) as (x & Hlast & Hinv & ->).
  unfold streak_inv in Hinv. rewrite Hlast in Hinv.
  destruct Hinv as (_ & Hmax & Hcur & Hrun & Hstop & [a0 Hbest] & Hbound).
  set (s := streak_loop (sorted_keys m)) in *.
  assert (forall d, d ∈ sorted_keys m <-> a <= d < a + n) as Hkeys
    by (intros d; rewrite sorted_keys_elem_of; apply Hdom).
  assert (x = a + n - 1) as ->.
  { pose proof (Hmax (a + n - 1) (proj2 (Hkeys (a + n - 1)) ltac:(lia))).
    pose proof (proj1 (Hkeys x) (last_Some_elem_of _ _ Hlast)). lia. }
  assert (max_streak s = n) as ->.
  { pose proof (Hbound a n (fun i Hi => proj2 (Hkeys (a + i)) ltac:(lia))) as Hge.
    pose proof (proj1 (Hkeys (a0 + 0)) (Hbest 0 ltac:(lia))).
    pose proof (proj1 (Hkeys (a0 + (max_streak s - 1)))
                  (Hbest (max_streak s - 1) ltac:(lia))). lia. }
  assert (current_streak s = n) as ->.
  { pose proof (proj1 (Hkeys (a + n - 1 - current_streak s + 1 + 0))
                  (Hrun 0 ltac:(lia))).
    destruct (Z_lt_le_dec (current_streak s) n) as [Hlt|Hge]; [|lia].
    exfalso. apply Hstop, Hkeys. lia. }
  reflexivity.
Qed.

Lemma consecutive_days_streak_witness :
  calculate_streaks monday_only (ymd 2024 1 1)
  = (if ymd 2024 1 1 =? ymd 2024 1 1 + 1 - 1 then 1 else 0, 1).
Proof.
  apply (consecutive_days_streak monday_only (ymd 2024 1 1) (ymd 2024 1 1) 1).
  - lia.
  - intros d. unfold monday_only. rewrite dom_singleton_L, elem_of_singleton. lia.
Defined.

(** The streaks depend on the set of activity days only, not on the
    counts; and a dict with more activity days never has a shorter longest
    streak. *)
Theorem longest_streak_monotone (m m' : gmap Z Z) (today : date) :
  (dom m = dom m' -> calculate_streaks m today = calculate_streaks m' today) /\
  (dom m ⊆ dom m' ->
   snd (calculate_streaks m today) <= snd (calculate_streaks m' today)).
Proof.
  split.
  - intros Hdom. unfold calculate_streaks, sorted_keys. rewrite Hdom. reflexivity.
  - intros Hsub.
    destruct (decide (m = ∅)) as [->|Hne].
    { rewrite calculate_streaks_empty. change (snd (0, 0)) with 0.
      pose proof (calculate_streaks_range m' today). lia. }
    assert (m' <> ∅) as Hne'.
    { intros ->. apply Hne, dom_empty_inv_L. rewrite dom_empty_L in Hsub.
      apply set_eq. intros x. split; [apply Hsub|]. intros Hx.
      by apply not_elem_of_empty in Hx. }
    destruct (calculate_streaks_nonempty m today Hne) as (x & Hlast & Hinv & ->).
    destruct (calculate_streaks_nonempty m' today Hne') as (x' & Hlast' & Hinv' & ->).
    unfold streak_inv in Hinv, Hinv'. rewrite Hlast in Hinv. rewrite Hlast' in Hinv'.
    destruct Hinv as (_ & _ & _ & _ & _ & [a Hbest] & _).
    destruct Hinv' as (_ & _ & _ & _ & _ & _ & Hbound').
    simpl. apply (Hbound' a). intros i Hi.
    apply sorted_keys_elem_of, Hsub, sorted_keys_elem_of, Hbest, Hi.
Qed.

Lemma longest_streak_monotone_witness :
  snd (calculate_streaks monday_only (ymd 2024 1 10))
  <= snd (calculate_streaks scenario3_days (ymd 2024 1 10)).
Proof.
  apply (proj2 (longest_streak_monotone monday_only scenario3_days (ymd 2024 1 10))).
  intros d Hd. rewrite (monday_only_dom d Hd).
  apply elem_of_dom. eexists. vm_compute. reflexivity.
Defined.

(** ** More on the chain count *)

Lemma remove_dups_length (l : list Z) : (length (remove_dups l) <= length l)%nat.
Proof.
  induction l as [|x l IH]; simpl; [lia|].
  destruct (decide_rel elem_of x l); simpl; lia.
Qed.

Lemma chain_set_snoc (l : list Z) (x : Z) :
  size (list_to_set (l ++ [x]) : gset Z)
  = (size (list_to_set l : gset Z) + (if decide (x ∈ l) then 0 else 1))%nat.
Proof.
  rewrite list_to_set_snoc_L.
  destruct (decide (x ∈ l)) as [Hin|Hout].
  - rewrite (comm_L (∪)), subseteq_union_1_L; [lia|].
    apply singleton_subseteq_l, elem_of_list_to_set, Hin.
  - rewrite size_union, size_singleton; [reflexivity|].
    apply disjoint_singleton_r. by rewrite elem_of_list_to_set.
Qed.

(** The number of distinct chains is between 0 and the number of records,
    is 0 only for the empty record list (so at least 1 otherwise), and
    does not depend on the order of the records. *)
Theorem chain_count_bounds (py : cpython) (transactions : list transfer) :
  0 <= fst (calculate_chain_and_amount py transactions)
    <= Z.of_nat (length transactions) /\
  (fst (calculate_chain_and_amount py transactions) = 0 <-> transactions = []) /\
  (forall transactions', transactions ≡ₚ transactions' ->
     fst (calculate_chain_and_amount py transactions')
     = fst (calculate_chain_and_amount py transactions)).
Proof.
  unfold calculate_chain_and_amount. cbn [fst].
  fold (chain_ids transactions).
  split; [|split].
  - rewrite size_chain_set. unfold distinct_count.
    pose proof (remove_dups_length (chain_ids transactions)) as Hle.
    unfold chain_ids in Hle at 2. rewrite length_map in Hle. lia.
  - split.
    + intros Hz. destruct transactions as [|tx txs]; [reflexivity|exfalso].
      assert (size (list_to_set (chain_ids (tx :: txs)) : gset Z) = 0%nat) as Hsz by lia.
      apply size_empty_iff in Hsz.
      apply (not_elem_of_empty (C := gset Z) (chainId (receiving tx))).
      rewrite <- Hsz. apply elem_of_list_to_set. simpl. apply list_elem_of_here.
    + intros ->. reflexivity.
  - intros transactions' Hperm. do 2 f_equal. apply set_eq. intros x.
    rewrite !elem_of_list_to_set. unfold chain_ids. by rewrite Hperm.
Qed.

Lemma chain_count_bounds_witness :
  fst (calculate_chain_and_amount From312 (rev scenario5))
  = fst (calculate_chain_and_amount From312 scenario5).
Proof.
  apply (proj2 (proj2 (chain_count_bounds From312 scenario5))).
  symmetry. apply (reverse_Permutation scenario5).
Defined.

(** One more record raises the number of distinct chains by one when its
    chain id is new and leaves it unchanged otherwise. *)
Theorem chain_count_step (py : cpython) (transactions : list transfer)
    (tx : transfer) :
  fst (calculate_chain_and_amount py (transactions ++ [tx]))
  = fst (calculate_chain_and_amount py transactions)
    + (if decide (chainId (receiving tx) ∈ chain_ids transactions) then 0 else 1).
Proof.
  unfold calculate_chain_and_amount. cbn [fst].
  rewrite map_app. simpl map. rewrite chain_set_snoc.
  fold (chain_ids transactions).
  destruct (decide (chainId (receiving tx) ∈ chain_ids transactions)); lia.
Qed.

(** ** The whole analysis *)

(** The total of the returned grid is that of the daily sequence. *)
Lemma grid_total (m : gmap Z Z) (start_date today : date) :
  0 <= total_days start_date today ->
  Np.sum2 (Np.transpose
             (Np.NdArray2 (Z.to_nat (num_weeks start_date today)) 7
                (Np.chunk (Z.to_nat (num_weeks start_date today)) 7
                   (padded_sequence m start_date today (num_weeks start_date today)))))
  = Np.sum1 (daily_sequence m start_date today).
Proof.
  intros Hn.
  rewrite transpose_sum by (simpl; intros row; by apply grid_rectangular).
  unfold Np.sum2. cbn [Np.cells].
  rewrite chunk_sum; [apply padded_sequence_sum|].
  pose proof (length_padded_sequence m start_date today Hn).
  pose proof (num_weeks_bounds start_date today Hn) as [_ ?]. lia.
Qed.

Lemma fetch_nonempty (data : response_json) :
  fst (fetch_transactions data) <> [] -> snd (fetch_transactions data) <> ∅.
Proof.
  intros Hne Hemp. apply Hne.
  pose proof (activity_fold_sum (fst (fetch_transactions data)) ∅) as Hsum.
  simpl in *. rewrite Hemp in Hsum.
  unfold map_sum in Hsum. rewrite map_fold_empty in Hsum.
  destruct (default [] (transfers data)); [reflexivity|simpl in Hsum; lia].
Qed.




Lemma record_dates_size (txs : list transfer) :
  (size (list_to_set (map record_date txs) : gset Z) <= length txs)%nat.
Proof.
  pose proof (size_chain_set (map record_date txs)) as Hsz.
  pose proof (remove_dups_length (map record_date txs)) as Hle.
  unfold distinct_count in Hsz. rewrite length_map in Hle. lia.
Qed.

(** When there is at least one transfer and none is dated after [today],
    the analysis succeeds and its parts agree: the cells of the heatmap add
    up to the number of transfers, the streaks and the chain count are
    between 1 (0 for the active streak) and the number of transfers, and
    the start date is not after the end date, which is [today]. *)
Theorem analyze_past_transfers (py : cpython) (data : response_json)
    (today : date) :
  fst (fetch_transactions data) <> [] ->
  (forall tx, tx ∈ fst (fetch_transactions data) -> record_date tx <= today) ->
  exists r,
    analyze_wallet_activity py data today = Ok r /\
    Np.sum2 (Analysis.heatmap_data r)
      = Z.of_nat (length (fst (fetch_transactions data))) /\
    0 <= Analysis.active_streak r <= Analysis.longest_streak r /\
    1 <= Analysis.longest_streak r
      <= Z.of_nat (length (fst (fetch_transactions data))) /\
    1 <= Analysis.num_distinct_chain_ids r
      <= Z.of_nat (length (fst (fetch_transactions data))) /\
    Analysis.start_date r <= Analysis.end_date r /\
    Analysis.end_date r = today.
Proof.
  intros Hne Hpast. pose proof (fetch_nonempty data Hne) as Hact.
  unfold analyze_wallet_activity.
  destruct data as [tr]. unfold fetch_transactions in *.
  cbn [transfers fst snd] in *.
  set (txs := default [] tr) in *. clearbody txs. clear tr.
  set (act := fold_left activity_step txs ∅) in *.
  pose proof (activity_fold_sum txs ∅) as Hsum.
  pose proof (activity_fold_dom txs ∅) as Hdom.
  rewrite dom_empty_L, union_empty_r_L in Hdom.
  unfold map_sum at 2 in Hsum. rewrite map_fold_empty in Hsum.
  fold act in Hsum, Hdom.
  pose proof (record_dates_size txs) as Hsize.
  destruct (py_min_sorted_keys act Hact) as (start_date & _ & Hstart).
  assert (forall k, k ∈ dom act -> start_date <= k <= today) as Hkeys.
  { intros k Hk. split; [by apply (proj2 Hstart)|].
    rewrite Hdom in Hk. apply elem_of_list_to_set, list_elem_of_fmap in Hk
      as (tx & -> & Htx). by apply Hpast. }
  pose proof (Hkeys _ (proj1 Hstart)) as Hle.
  assert (0 <= total_days start_date today) as Hn by (unfold total_days; lia).
  pose proof (calculate_streaks_range act today) as [Hactive Hlong].
  destruct (calculate_streaks_nonempty act today Hact) as (x & Hlast & Hinv & Hcs).
  unfold streak_inv in Hinv. rewrite Hlast in Hinv.
  destruct Hinv as (_ & _ & Hcur & _).
  assert (1 <= snd (calculate_streaks act today)) as Hone by (rewrite Hcs; simpl; lia).
  rewrite <- size_dom, Hdom in Hlong.
  destruct (calculate_streaks act today) as [active longest]. cbn [fst snd] in *.
  pose proof (size_chain_set (chain_ids txs)) as Hchains.
  pose proof (remove_dups_length (chain_ids txs)) as Hchle.
  unfold chain_ids in Hchle at 2. rewrite length_map in Hchle.
  assert (1 <= fst (calculate_chain_and_amount py txs)) as Hch1.
  { unfold calculate_chain_and_amount. cbn [fst]. fold (chain_ids txs).
    rewrite Hchains. unfold distinct_count.
    destruct txs as [|tx0 txs0]; [contradiction|]. simpl.
    destruct (decide_rel elem_of _ _) as [Hin|_]; simpl; [|lia].
    apply elem_of_remove_dups in Hin. destruct (remove_dups (chain_ids txs0));
      [by apply not_elem_of_nil in Hin|simpl; lia]. }
  assert (fst (calculate_chain_and_amount py txs) <= Z.of_nat (length txs)) as Hch2.
  { unfold calculate_chain_and_amount. cbn [fst]. fold (chain_ids txs).
    rewrite Hchains. unfold distinct_count. lia. }
  destruct (calculate_chain_and_amount py txs) as [chains total]. cbn [fst] in *.
  rewrite (generate_contribution_data_nonempty act today start_date Hact Hstart).
  destruct (Z.ltb_spec (total_days start_date today) 0); [lia|].
  rewrite bind_Ok. eexists. split; [reflexivity|].
  cbn [Analysis.heatmap_data Analysis.active_streak Analysis.longest_streak
       Analysis.num_distinct_chain_ids Analysis.start_date Analysis.end_date].
  rewrite (grid_total act start_date today Hn).
  rewrite (daily_sequence_sum act start_date today Hkeys).
  repeat split; lia.
Qed.

Lemma analyze_past_transfers_witness :
  exists r,
    analyze_wallet_activity From312 (Response (Some scenario5)) (ymd 2024 1 2) = Ok r /\
    Np.sum2 (Analysis.heatmap_data r) = 3.
Proof.
  destruct (analyze_past_transfers From312 (Response (Some scenario5)) (ymd 2024 1 2))
    as (r & Hr & Hsum & _).
  - discriminate.
  - intros tx Htx. simpl in Htx.
    repeat (apply elem_of_cons in Htx as [->|Htx]; [vm_compute; discriminate|]).
    by apply not_elem_of_nil in Htx.
  - exists r. split; [exact Hr|exact Hsum].
Defined.

(** ** The week labels *)

(** The chart has one label date per column.  Label [i] is the day of
    column [i] in the row of the start date's weekday, so it reads that
    day's count when the day is not after [today]; every label date but
    the last is not after [today], and the last is at most seven days
    after it. *)
Theorem date_labels_align (m : gmap Z Z) (today start_date : date) :
  m <> ∅ -> earliest_day (dom m) start_date ->
  0 <= total_days start_date today ->
  exists g,
    generate_contribution_data m today = Ok (GridTuple g start_date today) /\
    length (date_labels g start_date) = Np.ncols g /\
    forall (i : nat) (d : date), date_labels g start_date !! i = Some d ->
      weekday d = weekday start_date /\
      (d - start_date + weekday start_date) / 7 = Z.of_nat i /\
      d <= today + 7 /\
      ((S i < Np.ncols g)%nat -> d <= today) /\
      (d <= today ->
       Np.get2 g (Z.to_nat (weekday start_date)) i = Some (dict_get m d)).
Proof.
  intros Hne Hstart Hn.
  rewrite (generate_contribution_data_nonempty m today start_date Hne Hstart).
  destruct (Z.ltb_spec (total_days start_date today) 0); [lia|].
  eexists. split; [reflexivity|].
  unfold date_labels. cbn [Np.transpose Np.ncols Np.nrows].
  split; [by rewrite length_map, length_seq|].
  intros i d Hd.
  change (map ?f ?l) with (f <$> l) in Hd.
  rewrite list_lookup_fmap in Hd.
  destruct (seq 0 (Z.to_nat (num_weeks start_date today)) !! i) as [j|] eqn:Hj;
    [|discriminate].
  apply lookup_seq in Hj as [-> Hi]. simpl in Hd. injection Hd as <-.
  unfold add_days.
  pose proof (num_weeks_bounds start_date today Hn) as [Hb Hw1].
  pose proof (length_padded_sequence m start_date today Hn) as Hlen.
  pose proof (weekday_range start_date) as Hw.
  unfold leading_pad in Hb.
  assert (weekday (start_date + 7 * Z.of_nat i) = weekday start_date) as Hrow.
  { rewrite weekday_add.
    replace (weekday start_date + 7 * Z.of_nat i)
      with (weekday start_date + Z.of_nat i * 7) by lia.
    rewrite Z.mod_add by lia. apply Z.mod_small. exact Hw. }
  split; [exact Hrow|]. split.
  { replace (start_date + 7 * Z.of_nat i - start_date + weekday start_date)
      with (weekday start_date + Z.of_nat i * 7) by lia.
    rewrite Z.div_add by lia. rewrite Z.div_small by exact Hw. lia. }
  split; [unfold total_days in *; lia|].
  split; [unfold total_days in *; lia|].
  intros Hpast.
  rewrite grid_get2 by lia.
  replace (i * 7 + Z.to_nat (weekday start_date))%nat
    with (Z.to_nat (leading_pad start_date + 7 * Z.of_nat i))
    by (unfold leading_pad; lia).
  apply padded_lookup_day. unfold total_days. lia.
Qed.

Lemma date_labels_align_witness :
  exists g,
    generate_contribution_data monday_only (ymd 2024 1 7)
      = Ok (GridTuple g (ymd 2024 1 1) (ymd 2024 1 7)) /\
    length (date_labels g (ymd 2024 1 1)) = Np.ncols g.
Proof.
  destruct (date_labels_align monday_only (ymd 2024 1 7) (ymd 2024 1 1)
              monday_only_nonempty monday_only_earliest
              ltac:(vm_compute; discriminate))
    as (g & Hg & Hlen & _).
  exists g. split; [exact Hg|exact Hlen].
Defined.

(** ** The only failure of the grid *)

(** The one exception [generate_contribution_data] can raise is numpy's
    refusal of a negative day count, on a non-empty dict whose earliest
    key is more than a day after [today]; taking the minimum, padding and
    reshaping never fail. *)
Theorem grid_only_error (m : gmap Z Z) (today : date) (e : exn) :
  generate_contribution_data m today = Raise e ->
  e = ValueError "negative dimensions are not allowed" /\
  m <> ∅ /\
  forall start_date, earliest_day (dom m) start_date -> today + 1 < start_date.
Proof.
  intros Hraise.
  destruct (decide (m = ∅)) as [->|Hne].
  { rewrite generate_contribution_data_empty in Hraise. discriminate. }
  destruct (py_min_sorted_keys m Hne) as (start_date & _ & Hstart).
  rewrite (generate_contribution_data_nonempty m today start_date Hne Hstart) in Hraise.
  destruct (Z.ltb_spec (total_days start_date today) 0) as [Hneg|_]; [|discriminate].
  injection Hraise as <-. split; [reflexivity|]. split; [exact Hne|].
  intros start' Hstart'.
  rewrite (earliest_day_unique _ _ _ Hstart' Hstart).
  unfold total_days in Hneg. lia.
Qed.

Lemma grid_only_error_witness :
  ValueError "negative dimensions are not allowed"
  = ValueError "negative dimensions are not allowed" /\
  monday_only <> ∅ /\
  forall start_date,
    earliest_day (dom monday_only) start_date -> ymd 2023 12 25 + 1 < start_date.
Proof.
  apply (grid_only_error monday_only (ymd 2023 12 25)). vm_compute. reflexivity.
Defined.
